(** * Query-mediation pipeline of the Tableau MCP tools

    A shallow embedding of

    - [src/tools/listDatasources/listDatasources.ts]
      ([constrainDatasources], the list-shaped access gate), and
    - [src/tools/queryDatasource/queryDatasource.ts]
      (the structured-query tool [Tableau-Answer], the natural-language
      wrapper [simple_query_datasource] and their helpers),

    together with the properties the specification states about them.

    Conventions.  JavaScript strings are [string]; a [Set<string>] is a
    [gset string]; an optional property is an [option]; a [Result] of
    [ts-results-es] is the inductive [Result].  Remote capabilities are
    fields of an environment record that thread an abstract world state, and
    every call is logged, with its answer, in a trace of [Event]s: "the
    capability is never invoked" is a statement about that trace. *)

From Stdlib Require Import String Ascii ZArith List Bool.
From stdpp Require Import base decidable option list gmap strings.

Open Scope string_scope.
Open Scope list_scope.

#[local] Set Warnings "-register-all".

(** ** JavaScript string operations *)

Module JsString.

(** [s.startsWith(t)]. *)
Fixpoint startsWith (s t : string) {struct t} : bool :=
  match t, s with
  | EmptyString, _ => true
  | String _ _, EmptyString => false
  | String b t', String a s' => if Ascii.eqb a b then startsWith s' t' else false
  end.

(** [s.includes(t)]: [t] occurs in [s] as a contiguous substring. *)
Fixpoint includes (s t : string) : bool :=
  startsWith s t ||
  match s with
  | EmptyString => false
  | String _ s' => includes s' t
  end.

(** [parts.join(sep)]. *)
Fixpoint join (sep : string) (parts : list string) : string :=
  match parts with
  | [] => EmptyString
  | [p] => p
  | p :: rest => p +:+ sep +:+ join sep rest
  end.

(** The one-character string holding a double quote (code 34). *)
Definition dquote : string := String (ascii_of_nat 34) EmptyString.

(** An ASCII instance of [toLowerCase], used for concrete runs. *)
Definition lowerAscii (c : ascii) : ascii :=
  let n := nat_of_ascii c in
  if (65 <=? n)%nat && (n <=? 90)%nat then ascii_of_nat (n + 32) else c.

Fixpoint asciiToLowerCase (s : string) : string :=
  match s with
  | EmptyString => EmptyString
  | String c s' => String (lowerAscii c) (asciiToLowerCase s')
  end.

(** An ASCII instance of [trim]: strips tab, line feed, vertical tab,
    form feed, carriage return and space at both ends. *)
Definition isWhitespace (c : ascii) : bool :=
  let n := nat_of_ascii c in
  ((9 <=? n)%nat && (n <=? 13)%nat) || (n =? 32)%nat.

Fixpoint trimStart (s : string) : string :=
  match s with
  | String c s' => if isWhitespace c then trimStart s' else s
  | EmptyString => EmptyString
  end.

Fixpoint trimEnd (s : string) : string :=
  match s with
  | EmptyString => EmptyString
  | String c s' =>
      match trimEnd s' with
      | EmptyString => if isWhitespace c then EmptyString else String c EmptyString
      | r => String c r
      end
  end.

Definition asciiTrim (s : string) : string := trimEnd (trimStart s).

End JsString.

(** ** [listDatasources.ts]: the list-shaped access gate *)

Module ListDatasources.

(** [DataSource] of the REST SDK, restricted to the properties read here. *)
Record Project := { project_id : string }.

Record DataSource := {
  ds_id : string;
  ds_name : string;
  ds_project : Project;
}.

(** [BoundedContext] of the configuration: each allow-set is [Set<string>]
    or [null]. *)
Record BoundedContext := {
  projectIds : option (gset string);
  datasourceIds : option (gset string);
}.

(** [ConstrainedResult<T>], restricted to the two shapes built here. *)
Inductive ConstrainedResult (T : Type) :=
| EmptyResult (message : string)
| SuccessResult (result : T).
Arguments EmptyResult {T} message.
Arguments SuccessResult {T} result.

(** The [type] discriminant of a [ConstrainedResult]. *)
Definition resultType {T} (r : ConstrainedResult T) : string :=
  match r with
  | EmptyResult _ => "empty"
  | SuccessResult _ => "success"
  end.

Definition resultMessage {T} (r : ConstrainedResult T) : option string :=
  match r with
  | EmptyResult m => Some m
  | SuccessResult _ => None
  end.

Definition noDatasourcesMessage : string :=
  "No datasources were found. Either none exist or you do not have permission to view them.".

Definition allFilteredMessage : string :=
  JsString.join " " [
    "The set of allowed data sources that can be queried is limited by the server configuration.";
    "While data sources were found, they were all filtered out by the server configuration."
  ].

(** [set.has(x)]. *)
Definition has (s : gset string) (x : string) : bool := bool_decide (x ∈ s).

Definition constrainDatasources
    (datasources : list DataSource) (boundedContext : BoundedContext)
    : ConstrainedResult (list DataSource) :=
  if (length datasources =? 0)%nat then EmptyResult noDatasourcesMessage
  else
    let datasources :=
      match projectIds boundedContext with
      | Some projectIds =>
          List.filter (fun datasource => has projectIds (project_id (ds_project datasource)))
                      datasources
      | None => datasources
      end in
    let datasources :=
      match datasourceIds boundedContext with
      | Some datasourceIds =>
          List.filter (fun datasource => has datasourceIds (ds_id datasource)) datasources
      | None => datasources
      end in
    if (length datasources =? 0)%nat then EmptyResult allFilteredMessage
    else SuccessResult datasources.

(** The two narrowing steps of [constrainDatasources] on their own: the
    value of the local [datasources] when the second length test runs. *)
Definition narrowed (datasources : list DataSource) (boundedContext : BoundedContext)
    : list DataSource :=
  let datasources :=
    match projectIds boundedContext with
    | Some projectIds =>
        List.filter (fun datasource => has projectIds (project_id (ds_project datasource)))
                    datasources
    | None => datasources
    end in
  match datasourceIds boundedContext with
  | Some datasourceIds =>
      List.filter (fun datasource => has datasourceIds (ds_id datasource)) datasources
  | None => datasources
  end.

(** The per-resource predicate of the gate. *)
Definition isResourceAllowed (d : DataSource) (bc : BoundedContext) : bool :=
  match projectIds bc with
  | Some ps => has ps (project_id (ds_project d))
  | None => true
  end &&
  match datasourceIds bc with
  | Some ids => has ids (ds_id d)
  | None => true
  end.

(** *** The [limit] handed to the paginator (lines 55-57)

    [config.maxResultLimit ? Math.min(config.maxResultLimit, limit ??
    Number.MAX_SAFE_INTEGER) : limit], over integer-valued numbers.  A
    [maxResultLimit] of [0] is falsy, like an absent one. *)
Definition MAX_SAFE_INTEGER : Z := (2 ^ 53 - 1)%Z.

Definition pageConfigLimit (maxResultLimit limit : option Z) : option Z :=
  match maxResultLimit with
  | Some m =>
      if (m =? 0)%Z then limit
      else Some (Z.min m (default MAX_SAFE_INTEGER limit))
  | None => limit
  end.

End ListDatasources.

(** ** [queryDatasource.ts]: the two query tools *)

Module QueryDatasource.

(** [Result<T, E>] of [ts-results-es]. *)
Inductive Result (T E : Type) :=
| Ok (value : T)
| Err (error : E).
Arguments Ok {T E} value.
Arguments Err {T E} error.

Definition isErr {T E} (r : Result T E) : bool :=
  match r with
  | Ok _ => false
  | Err _ => true
  end.

(** *** Values of type [any]

    The metadata payload and the field caption derived from it are typed
    [any] in the source; they are parsed JSON, plus [undefined]. *)
Inductive Json :=
| JUndefined
| JNull
| JBool (b : bool)
| JNumber (n : Z)
| JString (s : string)
| JArray (items : list Json)
| JObject (props : list (string * Json)).

Definition lookupProp (props : list (string * Json)) (key : string) : Json :=
  match List.find (fun kv => String.eqb (fst kv) key) props with
  | Some kv => snd kv
  | None => JUndefined
  end.

(** [v?.key].  None of the keys read in this file is a property of a
    primitive or of an array, so only objects answer. *)
Definition optGet (v : Json) (key : string) : Json :=
  match v with
  | JObject props => lookupProp props key
  | _ => JUndefined
  end.

Definition isNullish (v : Json) : bool :=
  match v with
  | JUndefined | JNull => true
  | _ => false
  end.

(** [a ?? b]. *)
Definition coalesce (a b : Json) : Json := if isNullish a then b else a.

Infix "??" := coalesce (at level 45, left associativity).

(** *** Request and response shapes of the VizQL Data Service SDK *)

Record Field := {
  fieldCaption : Json;
  function : option string;
  fieldAlias : option string;
}.

(** Modelled from the spec: the filter specification of a StructuredQuery
    (field name, filter kind, literal values); its declaration is in the
    SDK, outside the two source files. *)
Record Filter := {
  filterField : string;
  filterType : string;
  filterValues : list string;
}.

Record Query := {
  fields : list Field;
  filters : option (list Filter);
  limit : option Z;
}.

Record Connection := {
  connectionLuid : string;
  connectionUsername : string;
  connectionPassword : string;
}.

Record Datasource := {
  datasourceLuid : string;
  connections : option (list Connection);
}.

Record Options := {
  returnFormat : string;
  debug : bool;
  disaggregate : bool;
}.

Record QueryRequest := {
  datasource : Datasource;
  query : Query;
  options : Options;
}.

(** [QueryOutput]: an opaque payload. *)
Definition QueryOutput := Json.

Record TableauError := {
  errorCode : string;
  message : string;
}.

(** What a failed remote call carries: a [ZodiosError] object, the string
    ['feature-disabled'], or a [TableauError] payload. *)
Inductive RemoteError :=
| RemoteZodios (description : string)
| RemoteFeatureDisabled
| RemoteTableau (e : TableauError).

(** Modelled from the spec: a ValidationFinding (field name, offending
    value, reason); the source reads only its [message]. *)
Record ValidationFinding := {
  findingField : string;
  findingValue : string;
  findingMessage : string;
}.

(** The answer of [resourceAccessChecker.isDatasourceAllowed]. *)
Inductive AllowedResult :=
| Allowed
| NotAllowed (message : string).

(** An element of a datasource listing, read through [any]. *)
Record ListedDatasource := {
  ld_name : option string;
  ld_luid : option string;
  ld_id : option string;
}.

Record Config := {
  disableQueryDatasourceFilterValidation : bool;
}.

(** *** Outcomes *)

(** [QueryDatasourceError].  The last constructor is the [ZodiosError]
    that line 131 returns as it is; it is not a member of the declared
    union and has no [type] property. *)
Inductive QueryDatasourceError :=
| FeatureDisabled
| DatasourceNotAllowed (message : string)
| FilterValidation (message : string)
| TableauErr (error : TableauError)
| ZodiosPassthrough (description : string).

Definition errorType (e : QueryDatasourceError) : option string :=
  match e with
  | FeatureDisabled => Some "feature-disabled"
  | DatasourceNotAllowed _ => Some "datasource-not-allowed"
  | FilterValidation _ => Some "filter-validation"
  | TableauErr _ => Some "tableau-error"
  | ZodiosPassthrough _ => None
  end.

(** The [error] property of the wrapper's ['tableau-error']: cast through
    [any], it holds a [TableauError] or a [ZodiosError]. *)
Inductive ErrorPayload :=
| PayloadTableau (e : TableauError)
| PayloadZodios (description : string).

(** [SimpleQueryDatasourceError]. *)
Inductive SimpleQueryDatasourceError :=
| SimpleDatasourceNotFound (message : string)
| SimpleDatasourceNotAllowed (message : string)
| SimpleFeatureDisabled
| SimpleTableauError (error : ErrorPayload).

Definition simpleErrorType (e : SimpleQueryDatasourceError) : string :=
  match e with
  | SimpleDatasourceNotFound _ => "datasource-not-found"
  | SimpleDatasourceNotAllowed _ => "datasource-not-allowed"
  | SimpleFeatureDisabled => "feature-disabled"
  | SimpleTableauError _ => "tableau-error"
  end.

(** *** Remote capabilities and the trace of their calls *)

Inductive Event :=
| EvListDatasources (filter : string) (pageSize pageNumber : nat)
                    (answer : option (list ListedDatasource))
| EvIsDatasourceAllowed (luid : string) (answer : AllowedResult)
| EvReadMetadata (luid : string) (answer : Result Json RemoteError)
| EvValidateFilterValues (q : Query) (d : Datasource)
                         (answer : Result unit (list ValidationFinding))
| EvQueryDatasource (request : QueryRequest) (answer : Result QueryOutput RemoteError).

(** The collaborators of the tools.  [W] is the state of the world they
    run against; a call may change it, so the same request can be
    answered differently at different times.  [useRestApi] hands its
    callback a REST client and returns what the callback returns, so it
    does not show.  [validateFilterValues] and [isDatasourceAllowed] are
    defined outside the two source files: what they do on their own,
    remote calls included, is part of their answer, and
    [EvQueryDatasource] logs the calls the tools make themselves
    (lines 127 and 375). *)
Record Env (W : Type) := {
  listDatasources : W -> string -> nat -> nat -> option (list ListedDatasource) * W;
  isDatasourceAllowed : W -> string -> AllowedResult * W;
  readMetadata : W -> string -> Result Json RemoteError * W;
  validateFilterValues :
    W -> Query -> Datasource -> Result unit (list ValidationFinding) * W;
  queryDatasource : W -> QueryRequest -> Result QueryOutput RemoteError * W;
  getDatasourceCredentials : string -> option (list Connection);
}.
Arguments listDatasources {W} _ _ _ _ _.
Arguments isDatasourceAllowed {W} _ _ _.
Arguments readMetadata {W} _ _ _.
Arguments validateFilterValues {W} _ _ _ _.
Arguments queryDatasource {W} _ _ _.
Arguments getDatasourceCredentials {W} _ _.


(** A computation returns its value, the events it emitted, in order, and
    the world it leaves. *)
Definition M (W A : Type) : Type := W -> A * list Event * W.

Definition ret {W A} (a : A) : M W A := fun w => (a, [], w).

Definition bind {W A B} (m : M W A) (f : A -> M W B) : M W B :=
  fun w =>
    let '(a, evs1, w1) := m w in
    let '(b, evs2, w2) := f a w1 in
    (b, evs1 ++ evs2, w2).

Notation "x <- m ;; k" := (bind m (fun x => k))
  (at level 100, m at next level, right associativity).

(** [await capability(args)]: ask the world, log the call. *)
Definition call {W A} (ask : W -> A * W) (log : A -> Event) : M W A :=
  fun w => let '(a, w1) := ask w in (a, [log a], w1).

Definition value {W A} (r : A * list Event * W) : A := fst (fst r).
Definition trace {W A} (r : A * list Event * W) : list Event := snd (fst r).

(** The page fetches of a trace: page number and answer, in order. *)
Definition pageFetches (evs : list Event)
    : list (nat * option (list ListedDatasource)) :=
  omap (fun ev => match ev with
                  | EvListDatasources _ _ pageNumber answer => Some (pageNumber, answer)
                  | _ => None
                  end) evs.

(** The datasources a trace has scanned: its fetched pages, concatenated;
    a page answered [undefined] counts as empty ([datasources ?? []]). *)
Definition scannedListing (evs : list Event) : list ListedDatasource :=
  concat (List.map (fun f => default [] (snd f)) (pageFetches evs)).

(** The requests a trace sent to [queryDatasource]. *)
Definition executedQueries (evs : list Event) : list QueryRequest :=
  omap (fun ev => match ev with
                  | EvQueryDatasource request _ => Some request
                  | _ => None
                  end) evs.

(** *** Pure helpers *)

(** The [candidates] of [extractFirstFieldCaption] (lines 432-437). *)
Definition candidatesOf (readMetadataValue : Json) : Json :=
  optGet readMetadataValue "fields"
  ?? optGet (optGet readMetadataValue "result") "fields"
  ?? optGet (optGet readMetadataValue "data") "fields"
  ?? optGet (optGet readMetadataValue "metadata") "fields"
  ?? JArray [].

(** Lines 430-447.  The result is typed [string] but is whatever the
    first of the three properties holds. *)
Definition extractFirstFieldCaption (readMetadataValue : Json) : Json :=
  let candidates := candidatesOf readMetadataValue in
  let first :=
    match candidates with
    | JArray items => List.hd JUndefined items
    | _ => JUndefined
    end in
  optGet first "fieldCaption"
  ?? optGet first "name"
  ?? optGet first "caption"
  ?? JString "Number of Records".

(** Lines 449-466. *)
Definition buildQueryFromQuestion
    (question : string) (firstFieldCaption : Json) (rowLimit : Z) : Query :=
  {| fields := [ {| fieldCaption := firstFieldCaption;
                    function := Some "COUNT";
                    fieldAlias := Some "Total Records" |} ];
     filters := None;
     limit := Some rowLimit |}.

(** JavaScript truthiness of [luid ?? id], a string or [undefined]. *)
Definition truthyString (s : option string) : bool :=
  match s with
  | None => false
  | Some EmptyString => false
  | Some _ => true
  end.

Definition notFoundMessage (datasourceName : string) : string :=
  "No datasource matched " +:+ JsString.dquote +:+ datasourceName
    +:+ JsString.dquote +:+ ".".

Definition noLuidMessage (datasourceName : string) : string :=
  "Datasource " +:+ JsString.dquote +:+ datasourceName +:+ JsString.dquote
    +:+ " was found but had no LUID/ID in the response.".

Definition joinFindings (errors : list ValidationFinding) : string :=
  JsString.join ", " (List.map findingMessage errors).

(** The pages the [for] loop of the resolver ranges over: 1 to 5. *)
Definition pageSize : nat := 100.
Definition pageNumbers : list nat := List.seq 1 5.

(** The event is a page fetch of the resolver. *)
Definition isPageFetch (ev : Event) : Prop :=
  exists pageNumber answer, ev = EvListDatasources "" pageSize pageNumber answer.

(** [!datasources || datasources.length < pageSize]. *)
Definition shortPage (datasources : option (list ListedDatasource)) : bool :=
  match datasources with
  | None => true
  | Some l => (length l <? pageSize)%nat
  end.

Section Tools.

(** [String.prototype.toLowerCase] and [trim] are Unicode-aware
    builtins; the tools are embedded over any implementation of them. *)
Variable toLowerCase : string -> string.
Variable trim : string -> string.

Variable W : Type.
Variable env : Env W.
Variable config : Config.

Definition nameLower (d : ListedDatasource) : string :=
  toLowerCase (default EmptyString (ld_name d)).

Definition bestDatasourceMatch
    (list : list ListedDatasource) (targetLower : string) : option ListedDatasource :=
  let exact := List.find (fun d => String.eqb (nameLower d) targetLower) list in
  match exact with
  | Some e => Some e
  | None => List.find (fun d => JsString.includes (nameLower d) targetLower) list
  end.

Definition callListDatasources (pageNumber : nat)
    : M W (option (list ListedDatasource)) :=
  call (fun w => listDatasources env w "" pageSize pageNumber)
       (EvListDatasources "" pageSize pageNumber).

Definition callIsDatasourceAllowed (luid : string) : M W AllowedResult :=
  call (fun w => isDatasourceAllowed env w luid) (EvIsDatasourceAllowed luid).

Definition callReadMetadata (luid : string) : M W (Result Json RemoteError) :=
  call (fun w => readMetadata env w luid) (EvReadMetadata luid).

Definition callValidateFilterValues (q : Query) (d : Datasource)
    : M W (Result unit (list ValidationFinding)) :=
  call (fun w => validateFilterValues env w q d) (EvValidateFilterValues q d).

Definition callQueryDatasource (request : QueryRequest)
    : M W (Result QueryOutput RemoteError) :=
  call (fun w => queryDatasource env w request) (EvQueryDatasource request).

(** *** The structured-query tool, [Tableau-Answer] (lines 70-143) *)

Definition queryDatasourceCallback (datasourceLuid : string) (query : Query)
    : M W (Result QueryOutput QueryDatasourceError) :=
  isDatasourceAllowedResult <- callIsDatasourceAllowed datasourceLuid ;;
  match isDatasourceAllowedResult with
  | NotAllowed message => ret (Err (DatasourceNotAllowed message))
  | Allowed =>
      let datasource :=
        {| datasourceLuid := datasourceLuid;
           connections := getDatasourceCredentials env datasourceLuid |} in
      let options :=
        {| returnFormat := "OBJECTS"; debug := true; disaggregate := false |} in
      let queryRequest :=
        {| datasource := datasource; query := query; options := options |} in
      let execute : M W (Result QueryOutput QueryDatasourceError) :=
        result <- callQueryDatasource queryRequest ;;
        match result with
        | Err (RemoteZodios z) => ret (Err (ZodiosPassthrough z))
        | Err RemoteFeatureDisabled => ret (Err FeatureDisabled)
        | Err (RemoteTableau e) => ret (Err (TableauErr e))
        | Ok v => ret (Ok v)
        end in
      if negb (disableQueryDatasourceFilterValidation config) then
        filterValidationResult <- callValidateFilterValues query datasource ;;
        match filterValidationResult with
        | Err errors => ret (Err (FilterValidation (joinFindings errors)))
        | Ok _ => execute
        end
      else execute
  end.

(** *** The natural-language tool, [simple_query_datasource] *)

(** The body of the [for] loop of lines 244-261, over the page numbers
    still to try. *)
Fixpoint scanPages (pages : list nat) (target : string)
    : M W (option ListedDatasource) :=
  match pages with
  | [] => ret None
  | pageNumber :: later =>
      datasources <- callListDatasources pageNumber ;;
      match bestDatasourceMatch (default [] datasources) target with
      | Some m => ret (Some m)
      | None =>
          if shortPage datasources then ret None
          else scanPages later target
      end
  end.

(** Lines 239-267. *)
Definition resolveDatasource (datasourceName : string)
    : M W (Result ListedDatasource SimpleQueryDatasourceError) :=
  let target := toLowerCase (trim datasourceName) in
  found <- scanPages pageNumbers target ;;
  match found with
  | Some m => ret (Ok m)
  | None => ret (Err (SimpleDatasourceNotFound (notFoundMessage datasourceName)))
  end.

(** Lines 270-394: what the callback does with the outcome of the
    resolution. *)
Definition queryResolved
    (datasourceName question : string) (rowLimit : Z)
    (resolved : Result ListedDatasource SimpleQueryDatasourceError)
    : M W (Result QueryOutput SimpleQueryDatasourceError) :=
  match resolved with
  | Err e => ret (Err e)
  | Ok found =>
      let datasourceLuid :=
        match ld_luid found with
        | Some l => Some l
        | None => ld_id found
        end in
      if negb (truthyString datasourceLuid) then
        ret (Err (SimpleDatasourceNotFound (noLuidMessage datasourceName)))
      else
        let datasourceLuid := default EmptyString datasourceLuid in
        isDatasourceAllowedResult <- callIsDatasourceAllowed datasourceLuid ;;
        match isDatasourceAllowedResult with
        | NotAllowed message => ret (Err (SimpleDatasourceNotAllowed message))
        | Allowed =>
            readMetadataResult <- callReadMetadata datasourceLuid ;;
            match readMetadataResult with
            | Err _ => ret (Err SimpleFeatureDisabled)
            | Ok metadata =>
                let firstFieldCaption := extractFirstFieldCaption metadata in
                let query :=
                  buildQueryFromQuestion question firstFieldCaption rowLimit in
                let datasource :=
                  {| datasourceLuid := datasourceLuid;
                     connections := getDatasourceCredentials env datasourceLuid |} in
                let options :=
                  {| returnFormat := "OBJECTS"; debug := false;
                     disaggregate := false |} in
                let queryRequest :=
                  {| datasource := datasource; query := query;
                     options := options |} in
                let execute : M W (Result QueryOutput SimpleQueryDatasourceError) :=
                  result <- callQueryDatasource queryRequest ;;
                  match result with
                  | Err (RemoteZodios z) =>
                      ret (Err (SimpleTableauError (PayloadZodios z)))
                  | Err RemoteFeatureDisabled => ret (Err SimpleFeatureDisabled)
                  | Err (RemoteTableau e) =>
                      ret (Err (SimpleTableauError (PayloadTableau e)))
                  | Ok v => ret (Ok v)
                  end in
                if negb (disableQueryDatasourceFilterValidation config) then
                  filterValidationResult <-
                    callValidateFilterValues query datasource ;;
                  match filterValidationResult with
                  | Err errors =>
                      ret (Err (SimpleTableauError
                                  (PayloadTableau
                                     {| errorCode := "validation";
                                        message := joinFindings errors |})))
                  | Ok _ => execute
                  end
                else execute
            end
        end
  end.

(** Lines 220-394: the callback of the tool. *)
Definition simpleQueryDatasourceCallback
    (datasourceName question : string) (limit : option Z)
    : M W (Result QueryOutput SimpleQueryDatasourceError) :=
  let rowLimit := default 20%Z limit in
  resolved <- resolveDatasource datasourceName ;;
  queryResolved datasourceName question rowLimit resolved.

(** *** [getErrorText] of the two tools

    [getVizqlDataServiceDisabledError], [handleQueryDatasourceError]
    and [JSON.stringify] are outside the two source files; the texts
    they produce are taken as given. *)
Variable requestId : string.
Variable vizqlDataServiceDisabledError : string.
Variable stringifyValidation : string -> string -> string.
Variable stringifyTableauError : string -> ErrorPayload -> string.

Definition getErrorText (error : QueryDatasourceError) : option string :=
  match error with
  | FeatureDisabled => Some vizqlDataServiceDisabledError
  | DatasourceNotAllowed message => Some message
  | FilterValidation message => Some (stringifyValidation requestId message)
  | TableauErr e => Some (stringifyTableauError requestId (PayloadTableau e))
  | ZodiosPassthrough _ => None
  end.

Definition simpleGetErrorText (error : SimpleQueryDatasourceError) : string :=
  match error with
  | SimpleFeatureDisabled => vizqlDataServiceDisabledError
  | SimpleDatasourceNotFound message => message
  | SimpleDatasourceNotAllowed message => message
  | SimpleTableauError e => stringifyTableauError requestId e
  end.

End Tools.

(** The collaborator an event is a call of. *)
Definition eventKind (ev : Event) : string :=
  match ev with
  | EvListDatasources _ _ _ _ => "listDatasources"
  | EvIsDatasourceAllowed _ _ => "isDatasourceAllowed"
  | EvReadMetadata _ _ => "readMetadata"
  | EvValidateFilterValues _ _ _ => "validateFilterValues"
  | EvQueryDatasource _ _ => "queryDatasource"
  end.

End QueryDatasource.

(** ** Sample data for concrete runs *)

Module Samples.
Import ListDatasources QueryDatasource.

Definition salesDs : DataSource :=
  {| ds_id := "ds-1"; ds_name := "Sales"; ds_project := {| project_id := "p-1" |} |}.
Definition hrDs : DataSource :=
  {| ds_id := "ds-2"; ds_name := "HR"; ds_project := {| project_id := "p-2" |} |}.
Definition noProjects : BoundedContext :=
  {| projectIds := Some ∅; datasourceIds := None |}.
Definition onlyP2 : BoundedContext :=
  {| projectIds := Some {[ "p-2" ]}; datasourceIds := None |}.

Definition listed (name luid : string) : ListedDatasource :=
  {| ld_name := Some name; ld_luid := None; ld_id := Some luid |}.
Definition salesEmea : ListedDatasource := listed "Sales (EMEA)" "luid-emea".
Definition sales : ListedDatasource := listed "Sales" "luid-sales".
Definition inventory : ListedDatasource := listed "Inventory" "luid-inv".

(** A world without state whose answers are fixed: the listing is cut
    into the given pages. *)
Definition fixedEnv
    (pages : list (list ListedDatasource))
    (gate : AllowedResult)
    (metadata : Result Json RemoteError)
    (validation : Result unit (list ValidationFinding))
    (answer : Result QueryOutput RemoteError) : Env unit :=
  {| listDatasources := fun w _ _ pageNumber => (pages !! (pageNumber - 1)%nat, w);
     isDatasourceAllowed := fun w _ => (gate, w);
     readMetadata := fun w _ => (metadata, w);
     validateFilterValues := fun w _ _ => (validation, w);
     queryDatasource := fun w _ => (answer, w);
     getDatasourceCredentials := fun _ => None |}.

Definition validating : Config := {| disableQueryDatasourceFilterValidation := false |}.

Definition orderMetadata : Json :=
  JObject [("fields", JArray [JObject [("fieldCaption", JString "Order ID")]])].

Definition missingValue : ValidationFinding :=
  {| findingField := "Region"; findingValue := "Atlantis";
     findingMessage := "Region has no value Atlantis" |}.
Definition missingYear : ValidationFinding :=
  {| findingField := "Year"; findingValue := "1870";
     findingMessage := "Year has no value 1870" |}.

Definition countRows : Query :=
  {| fields := [ {| fieldCaption := JString "Order ID"; function := Some "COUNT";
                    fieldAlias := None |} ];
     filters := Some [ {| filterField := "Region"; filterType := "SET";
                          filterValues := ["Atlantis"] |} ];
     limit := None |}.

Definition rows : QueryOutput := JObject [("data", JArray [])].

Definition serverError : RemoteError :=
  RemoteTableau {| errorCode := "500000"; message := "Internal error" |}.

Definition listing : list (list ListedDatasource) := [[salesEmea; sales]].

Definition envHealthy : Env unit :=
  fixedEnv listing Allowed (Ok orderMetadata) (Ok tt) (Ok rows).
Definition envRejecting : Env unit :=
  fixedEnv listing (NotAllowed "Querying this datasource is not allowed.")
    (Ok orderMetadata) (Ok tt) (Ok rows).
Definition envInvalidFilter : Env unit :=
  fixedEnv listing Allowed (Ok orderMetadata) (Err [missingValue; missingYear]) (Ok rows).
Definition envDisabled : Env unit :=
  fixedEnv listing Allowed (Ok orderMetadata) (Ok tt) (Err RemoteFeatureDisabled).
Definition envNoMetadata : Env unit :=
  fixedEnv listing Allowed (Err serverError) (Ok tt) (Ok rows).
Definition envOtherListing : Env unit :=
  fixedEnv [[inventory]] Allowed (Ok orderMetadata) (Ok tt) (Ok rows).

(** The two tools over the sample worlds, with ASCII string operations. *)
Definition runStructured (env : Env unit) (luid : string) (q : Query) :=
  queryDatasourceCallback unit env validating luid q tt.
Definition runSimple (env : Env unit) (name question : string) (lim : option Z) :=
  simpleQueryDatasourceCallback JsString.asciiToLowerCase JsString.asciiTrim
    unit env validating name question lim tt.
Definition runResolve (env : Env unit) (name : string) :=
  resolveDatasource JsString.asciiToLowerCase JsString.asciiTrim unit env name tt.

Definition notValidating : Config := {| disableQueryDatasourceFilterValidation := true |}.

Definition bothIds : BoundedContext :=
  {| projectIds := Some {[ "p-1"; "p-2" ]}; datasourceIds := Some {[ "ds-2" ]} |}.
Definition noDatasources : BoundedContext :=
  {| projectIds := None; datasourceIds := Some ∅ |}.
Definition unrestricted : BoundedContext :=
  {| projectIds := None; datasourceIds := None |}.

(** A listed datasource whose [luid] is the empty string although it has
    an [id]. *)
Definition blankLuid : ListedDatasource :=
  {| ld_name := Some "Sales"; ld_luid := Some ""; ld_id := Some "id-sales" |}.

Definition fullPage : list ListedDatasource := List.repeat inventory 100.

Definition envBlankLuid : Env unit :=
  fixedEnv [[blankLuid]] Allowed (Ok orderMetadata) (Ok tt) (Ok rows).
Definition envEndless : Env unit :=
  fixedEnv (List.repeat fullPage 7) Allowed (Ok orderMetadata) (Ok tt) (Ok rows).
Definition envLateExact : Env unit :=
  fixedEnv [fullPage ++ [salesEmea]; [sales]] Allowed (Ok orderMetadata) (Ok tt) (Ok rows).
Definition envServerError : Env unit :=
  fixedEnv listing Allowed (Ok orderMetadata) (Ok tt) (Err serverError).
Definition envZodios : Env unit :=
  fixedEnv listing Allowed (Ok orderMetadata) (Ok tt)
    (Err (RemoteZodios "Zodios: invalid response")).

Definition runStructuredWith (config : Config) (env : Env unit) (luid : string) (q : Query) :=
  queryDatasourceCallback unit env config luid q tt.
Definition runSimpleWith (config : Config) (env : Env unit)
    (name question : string) (lim : option Z) :=
  simpleQueryDatasourceCallback JsString.asciiToLowerCase JsString.asciiTrim
    unit env config name question lim tt.

(** Metadata whose top-level [fields] is empty while [result.fields] is
    not, and metadata that lists its fields in an array under [data]. *)
Definition shadowedMetadata : Json :=
  JObject [("fields", JArray []);
           ("result", JObject [("fields", JArray [JObject [("fieldCaption", JString "Region")]])])].
Definition dataArrayMetadata : Json :=
  JObject [("data", JArray [JObject [("fieldCaption", JString "Region")]])].
Definition namedFieldMetadata : Json :=
  JObject [("metadata",
            JObject [("fields", JArray [JObject [("fieldCaption", JNull);
                                                 ("name", JString "Profit")]])])].











End Samples.

(** * Properties *)

(** ** Facts about the string operations *)

Module JsStringFacts.
Import JsString.

Lemma startsWith_refl s : startsWith s s = true.
Proof. induction s as [|a s IH]; simpl; [done|]. rewrite Ascii.eqb_refl. exact IH. Qed.

Lemma startsWith_app s r : startsWith (s +:+ r) s = true.
Proof. induction s as [|a s IH]; simpl; [done|]. rewrite Ascii.eqb_refl. exact IH. Qed.

Lemma includes_refl s : includes s s = true.
Proof. destruct s; simpl; [done|]. by rewrite Ascii.eqb_refl, startsWith_refl. Qed.

Lemma includes_here s r : includes (s +:+ r) s = true.
Proof.
  destruct s as [|a s]; simpl.
  - by destruct r.
  - by rewrite Ascii.eqb_refl, startsWith_app.
Qed.

Lemma includes_app_r p s t : includes s t = true -> includes (p +:+ s) t = true.
Proof.
  intros H. induction p as [|a p IH]; simpl; [done|].
  rewrite IH. apply orb_true_r.
Qed.

(** A template literal [`${p}${t}${r}`] contains the interpolated [t]. *)
Lemma includes_infix p t r : includes (p +:+ t +:+ r) t = true.
Proof. apply includes_app_r, includes_here. Qed.

End JsStringFacts.

(** ** The list-shaped access gate *)

Module ListDatasourcesProps.
Import ListDatasources Samples.

Lemma filter_sublist_of {A} (f : A -> bool) (l : list A) :
  List.filter f l `sublist_of` l.
Proof.
  induction l as [|x l IH]; simpl.
  - constructor.
  - destruct (f x); by constructor.
Qed.

Lemma narrowed_sublist ds bc : narrowed ds bc `sublist_of` ds.
Proof.
  unfold narrowed.
  destruct (projectIds bc), (datasourceIds bc); try done;
    repeat (first [ apply filter_sublist_of
                  | etrans; [apply filter_sublist_of|] ]).
Qed.

Lemma filter_filter_andb {A} (f g : A -> bool) (l : list A) :
  List.filter g (List.filter f l) = List.filter (fun x => f x && g x) l.
Proof.
  induction l as [|x l IH]; simpl; [done|].
  destruct (f x); simpl; [destruct (g x)|]; by rewrite ?IH.
Qed.

Lemma filter_all_true {A} (l : list A) : List.filter (fun _ => true) l = l.
Proof. induction l; simpl; congruence. Qed.

Lemma filter_none {A} (f : A -> bool) (l : list A) :
  (forall x, f x = false) -> List.filter f l = [].
Proof. intros Hf. induction l as [|x l IH]; simpl; [done|]. by rewrite Hf. Qed.

(** Narrowing keeps exactly the resources the gate's predicate allows. *)
Lemma narrowed_isResourceAllowed ds bc :
  narrowed ds bc = List.filter (fun d => isResourceAllowed d bc) ds.
Proof.
  unfold narrowed, isResourceAllowed.
  destruct (projectIds bc), (datasourceIds bc); simpl.
  - apply filter_filter_andb.
  - apply List.filter_ext. intros d. by rewrite andb_true_r.
  - done.
  - by rewrite filter_all_true.
Qed.

(** [constrainDatasources] in terms of [narrowed]. *)
Lemma constrainDatasources_narrowed ds bc :
  constrainDatasources ds bc =
    match ds with
    | [] => EmptyResult noDatasourcesMessage
    | _ :: _ =>
        match narrowed ds bc with
        | [] => EmptyResult allFilteredMessage
        | r => SuccessResult r
        end
    end.
Proof.
  unfold constrainDatasources. destruct ds as [|d ds]; [done|].
  change (length (d :: ds) =? 0)%nat with false. cbv iota.
  fold (narrowed (d :: ds) bc).
  by destruct (narrowed (d :: ds) bc).
Qed.

(** C1, as stated, fails: a non-empty list that the bounded context narrows
    to nothing is answered with the same [type] tag, ["empty"], as an empty
    input list. *)
Lemma C1_same_tag_counterexample :
  [salesDs; hrDs] <> []
  /\ narrowed [salesDs; hrDs] noProjects = []
  /\ resultType (constrainDatasources [salesDs; hrDs] noProjects) = "empty"
  /\ resultType (constrainDatasources [] noProjects) = "empty".
Proof. split; [discriminate|]. repeat split; vm_compute; reflexivity. Qed.

(** C1 (amended): for a non-empty input list that the bounded context
    narrows to nothing, [constrainDatasources] returns the ["empty"] tag,
    the same tag as for an empty input, and tells the two cases apart by
    the message only: the "filtered out by the server configuration" text,
    which differs from the "No datasources were found" text. *)
Theorem C1_all_filtered_message ds bc :
  ds <> [] ->
  narrowed ds bc = [] ->
  constrainDatasources ds bc = EmptyResult allFilteredMessage
  /\ constrainDatasources [] bc = EmptyResult noDatasourcesMessage
  /\ resultType (constrainDatasources ds bc) = resultType (constrainDatasources [] bc)
  /\ resultMessage (constrainDatasources ds bc) <> resultMessage (constrainDatasources [] bc).
Proof.
  intros Hne Hnar.
  assert (H1 : constrainDatasources ds bc = EmptyResult allFilteredMessage).
  { rewrite constrainDatasources_narrowed, Hnar. by destruct ds. }
  assert (H2 : constrainDatasources [] bc = EmptyResult noDatasourcesMessage) by done.
  rewrite H1, H2. split; [done|]. split; [done|]. split; [done|].
  vm_compute. discriminate.
Qed.

Lemma C1_all_filtered_message_witness :
  resultMessage (constrainDatasources [salesDs; hrDs] noProjects)
  <> resultMessage (constrainDatasources [] noProjects).
Proof.
  apply (C1_all_filtered_message [salesDs; hrDs] noProjects);
    [discriminate | vm_compute; reflexivity].
Defined.

(** C5: when the set of allowed projects is present but empty, the gate
    allows no datasource, a non-empty input list is narrowed to the empty
    list, and the outcome is the "all filtered" one. *)
Theorem C5_empty_allowed_projects ds bc :
  projectIds bc = Some ∅ ->
  ds <> [] ->
  (forall d, isResourceAllowed d bc = false)
  /\ narrowed ds bc = []
  /\ constrainDatasources ds bc = EmptyResult allFilteredMessage.
Proof.
  intros Hp Hne.
  assert (Hno : forall d, isResourceAllowed d bc = false).
  { intros d. unfold isResourceAllowed, has. rewrite Hp.
    rewrite bool_decide_eq_false_2; [done | set_solver]. }
  assert (Hnar : narrowed ds bc = []).
  { rewrite narrowed_isResourceAllowed. by apply filter_none. }
  split; [done|]. split; [done|].
  rewrite constrainDatasources_narrowed, Hnar. by destruct ds.
Qed.

Lemma C5_empty_allowed_projects_witness :
  constrainDatasources [salesDs; hrDs] noProjects = EmptyResult allFilteredMessage.
Proof.
  apply (C5_empty_allowed_projects [salesDs; hrDs] noProjects);
    [reflexivity | discriminate].
Defined.

(** C9: the list in a success outcome of [constrainDatasources] is the
    input list with some elements removed: every survivor is an input
    element and the survivors keep their relative order (it is the input
    filtered by the gate's predicate). *)
Theorem C9_pure_narrowing ds bc r :
  constrainDatasources ds bc = SuccessResult r ->
  r `sublist_of` ds
  /\ (forall d, d ∈ r -> d ∈ ds)
  /\ r = List.filter (fun d => isResourceAllowed d bc) ds.
Proof.
  intros H. rewrite constrainDatasources_narrowed in H.
  assert (Hr : r = narrowed ds bc).
  { destruct ds; [discriminate|]. destruct (narrowed _ bc); congruence. }
  subst r. split; [apply narrowed_sublist|]. split.
  - intros d Hd. eapply sublist_subseteq; [apply narrowed_sublist | done].
  - apply narrowed_isResourceAllowed.
Qed.

Lemma C9_pure_narrowing_witness :
  [hrDs] `sublist_of` [salesDs; hrDs].
Proof.
  apply (C9_pure_narrowing [salesDs; hrDs] onlyP2 [hrDs]).
  vm_compute. reflexivity.
Defined.

End ListDatasourcesProps.

(** ** The query tools *)

Module QueryDatasourceProps.
Import JsString QueryDatasource Samples.

Lemma find_app {A} (f : A -> bool) (l1 l2 : list A) :
  List.find f (l1 ++ l2) =
    match List.find f l1 with
    | Some x => Some x
    | None => List.find f l2
    end.
Proof. induction l1 as [|x l1 IH]; simpl; [done|]. by destruct (f x). Qed.

Section Resolution.

Variable toLowerCase : string -> string.
Variable trim : string -> string.
Variable W : Type.
Variable env : Env W.

#[local] Abbreviation best := (bestDatasourceMatch toLowerCase).
#[local] Abbreviation lower := (nameLower toLowerCase).
#[local] Abbreviation scan := (scanPages toLowerCase W env).

(** *** [bestDatasourceMatch] on one list *)

Lemma best_exact l t d :
  In d l -> lower d = t ->
  exists m, best l t = Some m /\ lower m = t
            /\ List.find (fun x => String.eqb (lower x) t) l = Some m.
Proof.
  intros Hin Hd. unfold bestDatasourceMatch.
  destruct (List.find (fun x => String.eqb (lower x) t) l) as [m|] eqn:E.
  - exists m. apply List.find_some in E as E'. destruct E' as [_ E'].
    apply String.eqb_eq in E'. done.
  - eapply List.find_none in E; [|exact Hin]. simpl in E.
    apply String.eqb_neq in E. done.
Qed.

Lemma best_no_exact l t :
  (forall d, In d l -> lower d <> t) ->
  best l t = List.find (fun x => includes (lower x) t) l.
Proof.
  intros Hno. unfold bestDatasourceMatch.
  destruct (List.find (fun x => String.eqb (lower x) t) l) as [m|] eqn:E; [|done].
  apply List.find_some in E as [Hin E]. apply String.eqb_eq in E.
  by destruct (Hno m Hin).
Qed.

Lemma best_Some_In l t m : best l t = Some m -> In m l /\ includes (lower m) t = true.
Proof.
  unfold bestDatasourceMatch.
  destruct (List.find (fun x => String.eqb (lower x) t) l) as [e|] eqn:E.
  - intros [= <-]. apply List.find_some in E as [Hin E]. split; [done|].
    apply String.eqb_eq in E. rewrite E. apply JsStringFacts.includes_refl.
  - intros H. by apply List.find_some in H.
Qed.

Lemma best_app_None l1 l2 t : best l1 t = None -> best (l1 ++ l2) t = best l2 t.
Proof.
  unfold bestDatasourceMatch. rewrite !find_app.
  destruct (List.find (fun x => String.eqb (lower x) t) l1); [done|].
  by intros ->.
Qed.

(** *** The page loop *)

Ltac scan_step w p :=
  simpl; unfold bind, callListDatasources, call;
  destruct (listDatasources env w "" pageSize p) as [answer w1];
  destruct (best (default [] answer) _) as [m|] eqn:Hbest;
  [| destruct (shortPage answer) eqn:Hshort ].

Lemma scan_only_fetches pages target w :
  Forall isPageFetch (trace (scan pages target w)).
Proof.
  induction pages as [|p later IH] in w |- *; [constructor|].
  scan_step w p; simpl.
  1,2: repeat constructor; by eexists _, _.
  specialize (IH w1). destruct (scan later target w1) as [[v evs] w2].
  constructor; [by eexists _, _ | exact IH].
Qed.

Lemma scan_page_numbers pages target w :
  List.map fst (pageFetches (trace (scan pages target w))) `prefix_of` pages.
Proof.
  induction pages as [|p later IH] in w |- *; [done|].
  scan_step w p; simpl.
  1,2: by apply (prefix_cons p []), prefix_nil.
  specialize (IH w1). destruct (scan later target w1) as [[v evs] w2].
  simpl in *. by apply prefix_cons.
Qed.

Lemma scan_value pages target w :
  value (scan pages target w) = best (scannedListing (trace (scan pages target w))) target.
Proof.
  induction pages as [|p later IH] in w |- *; [done|].
  scan_step w p; unfold scannedListing; simpl.
  1,2: by rewrite app_nil_r.
  specialize (IH w1). destruct (scan later target w1) as [[v evs] w2].
  unfold value, trace, scannedListing in *; simpl in *.
  by rewrite best_app_None.
Qed.

(** Every fetch but the last saw a full page without a match. *)
Lemma scan_continues pages target w pre f post :
  pageFetches (trace (scan pages target w)) = pre ++ f :: post ->
  post <> [] ->
  best (default [] (snd f)) target = None /\ shortPage (snd f) = false.
Proof.
  induction pages as [|p later IH] in w, pre |- *.
  { simpl. by destruct pre. }
  scan_step w p; simpl.
  1,2: destruct pre as [|x [|y pre]]; simpl; intros [= ]; by subst.
  specialize (IH w1). destruct (scan later target w1) as [[v evs] w2].
  unfold trace in *; simpl in *.
  destruct pre as [|x pre]; simpl; intros [= ]; subst.
  - done.
  - by eapply IH.
Qed.

End Resolution.

(** The "not found" message quotes the name it was asked for. *)
Lemma notFoundMessage_includes name : includes (notFoundMessage name) name = true.
Proof.
  unfold notFoundMessage.
  do 2 apply JsStringFacts.includes_app_r. apply JsStringFacts.includes_here.
Qed.

(** *** The caption picked from the metadata *)

Lemma extract_first md first rest :
  candidatesOf md = JArray (first :: rest) ->
  extractFirstFieldCaption md
  = optGet first "fieldCaption" ?? optGet first "name" ?? optGet first "caption"
    ?? JString "Number of Records".
Proof. unfold extractFirstFieldCaption. by intros ->. Qed.

Lemma extract_empty md :
  candidatesOf md = JArray [] ->
  extractFirstFieldCaption md = JString "Number of Records".
Proof. unfold extractFirstFieldCaption. by intros ->. Qed.

Lemma candidates_fields md :
  isNullish (optGet md "fields") = false -> candidatesOf md = optGet md "fields".
Proof.
  intros H. unfold candidatesOf, coalesce. rewrite H.
  by destruct (optGet md "fields").
Qed.


Lemma extract_fieldCaption md first rest :
  optGet md "fields" = JArray (first :: rest) ->
  isNullish (optGet first "fieldCaption") = false ->
  extractFirstFieldCaption md = optGet first "fieldCaption".
Proof.
  intros Hf Hc. rewrite (extract_first md first rest).
  - unfold coalesce. by repeat (rewrite Hc; cbv iota).
  - rewrite candidates_fields; by rewrite Hf.
Qed.

Lemma extract_unavailable md :
  isNullish md = true -> extractFirstFieldCaption md = JString "Number of Records".
Proof. by destruct md. Qed.

(** *** Traces *)

Lemma pageFetches_app evs1 evs2 :
  pageFetches (evs1 ++ evs2) = pageFetches evs1 ++ pageFetches evs2.
Proof. apply omap_app. Qed.

Lemma executedQueries_app evs1 evs2 :
  executedQueries (evs1 ++ evs2) = executedQueries evs1 ++ executedQueries evs2.
Proof. apply omap_app. Qed.

Lemma executedQueries_fetches evs :
  Forall isPageFetch evs -> executedQueries evs = [].
Proof.
  induction 1 as [|ev evs (pn & ans & ->) _ IH]; [done|]. exact IH.
Qed.

(** An event that is not a page fetch and occurs after the resolution
    occurs in what follows the resolution. *)
Lemma In_after_fetches ev evs1 evs2 :
  Forall isPageFetch evs1 -> ~ isPageFetch ev -> In ev (evs1 ++ evs2) -> In ev evs2.
Proof.
  intros Hf Hev Hin. apply in_app_or in Hin as [Hin|Hin]; [|done].
  rewrite Forall_forall in Hf. destruct Hev. apply Hf. by apply list_elem_of_In.
Qed.

(** Case analysis over the answers of the collaborators. *)
Ltac env_cases :=
  repeat match goal with
  | |- context [isDatasourceAllowed ?e ?w ?l] =>
      destruct (isDatasourceAllowed e w l) as [[|?] ?]; simpl
  | |- context [readMetadata ?e ?w ?l] =>
      destruct (readMetadata e w l) as [[?|?] ?]; simpl
  | |- context [validateFilterValues ?e ?w ?q ?d] =>
      destruct (validateFilterValues e w q d) as [[?|?] ?]; simpl
  | |- context [queryDatasource ?e ?w ?r] =>
      destruct (queryDatasource e w r) as [[?|[?| |?]] ?]; simpl
  | |- context [disableQueryDatasourceFilterValidation ?c] =>
      destruct (disableQueryDatasourceFilterValidation c); simpl
  end.

(** Membership in a trace that has been computed. *)
Ltac in_trace :=
  repeat match goal with
  | H : In _ (_ :: _) |- _ => destruct H as [H|H]
  | H : In _ [] |- _ => destruct H
  | H : False |- _ => destruct H
  | H : _ \/ _ |- _ => destruct H as [H|H]
  end; simplify_eq.

Ltac unfold_tool :=
  unfold queryDatasourceCallback, queryResolved,
    callIsDatasourceAllowed, callReadMetadata, callValidateFilterValues,
    callQueryDatasource, bind, ret, call, value, trace; simpl.

Section ToolRuns.

Variable toLowerCase : string -> string.
Variable trim : string -> string.
Variable W : Type.
Variable env : Env W.
Variable config : Config.

#[local] Abbreviation structured := (queryDatasourceCallback W env config).
#[local] Abbreviation resolved_run := (queryResolved W env config).
#[local] Abbreviation simple := (simpleQueryDatasourceCallback toLowerCase trim W env config).
#[local] Abbreviation target := (fun name => toLowerCase (trim name)).

(** *** The run of the wrapper, cut at the end of the resolution *)

Lemma resolve_run name w found fetched w1 :
  scanPages toLowerCase W env pageNumbers (target name) w = (found, fetched, w1) ->
  resolveDatasource toLowerCase trim W env name w =
    (match found with
     | Some m => Ok m
     | None => Err (SimpleDatasourceNotFound (notFoundMessage name))
     end, fetched, w1).
Proof.
  intros E. unfold resolveDatasource, bind. rewrite E.
  destruct found; simpl; by rewrite app_nil_r.
Qed.

Lemma simple_decompose name question limit w :
  exists fetched found w1,
    scanPages toLowerCase W env pageNumbers (target name) w = (found, fetched, w1)
    /\ Forall isPageFetch fetched
    /\ let rest :=
         resolved_run name question (default 20%Z limit)
           (match found with
            | Some m => Ok m
            | None => Err (SimpleDatasourceNotFound (notFoundMessage name))
            end) w1 in
       trace (simple name question limit w) = fetched ++ trace rest
       /\ value (simple name question limit w) = value rest.
Proof.
  pose proof (scan_only_fetches toLowerCase W env pageNumbers (target name) w) as Hf.
  destruct (scanPages toLowerCase W env pageNumbers (target name) w)
    as [[found fetched] w1] eqn:E.
  exists fetched, found, w1. split; [done|]. split; [exact Hf|].
  unfold simpleQueryDatasourceCallback, bind.
  rewrite (resolve_run _ _ _ _ _ E).
  by destruct (queryResolved _ _ _ _ _ _ _ _) as [[v t] w2].
Qed.

(** *** What follows the resolution, by cases *)

Ltac resolved_cases resolved :=
  unfold queryResolved;
  destruct resolved as [?|?]; [|simpl; try done];
  [destruct (negb (truthyString _)); [simpl; try done|];
   unfold_tool; env_cases].

Lemma resolved_no_fetch name question rl resolved w :
  pageFetches (trace (resolved_run name question rl resolved w)) = [].
Proof. resolved_cases resolved; done. Qed.

Lemma resolved_gate name question rl resolved w l msg :
  In (EvIsDatasourceAllowed l (NotAllowed msg))
     (trace (resolved_run name question rl resolved w)) ->
  value (resolved_run name question rl resolved w) = Err (SimpleDatasourceNotAllowed msg)
  /\ trace (resolved_run name question rl resolved w)
     = [EvIsDatasourceAllowed l (NotAllowed msg)].
Proof. resolved_cases resolved; intros H; in_trace; done. Qed.

Lemma resolved_metadata_failure name question rl resolved w l e :
  In (EvReadMetadata l (Err e)) (trace (resolved_run name question rl resolved w)) ->
  value (resolved_run name question rl resolved w) = Err SimpleFeatureDisabled
  /\ executedQueries (trace (resolved_run name question rl resolved w)) = [].
Proof. resolved_cases resolved; intros H; in_trace; done. Qed.

Lemma resolved_validation_failure name question rl resolved w q d errors :
  In (EvValidateFilterValues q d (Err errors))
     (trace (resolved_run name question rl resolved w)) ->
  value (resolved_run name question rl resolved w)
  = Err (SimpleTableauError
           (PayloadTableau {| errorCode := "validation"; message := joinFindings errors |}))
  /\ executedQueries (trace (resolved_run name question rl resolved w)) = [].
Proof. resolved_cases resolved; intros H; in_trace; done. Qed.

Lemma resolved_not_found name question rl e w :
  resolved_run name question rl (Err e) w = (Err e, [], w).
Proof. done. Qed.


(** *** The structured-query tool, by cases *)

Lemma structured_gate luid q w l msg :
  In (EvIsDatasourceAllowed l (NotAllowed msg)) (trace (structured luid q w)) ->
  value (structured luid q w) = Err (DatasourceNotAllowed msg)
  /\ trace (structured luid q w) = [EvIsDatasourceAllowed luid (NotAllowed msg)].
Proof. unfold_tool; env_cases; intros H; in_trace; done. Qed.


Lemma structured_feature_disabled luid q w request :
  In (EvQueryDatasource request (Err RemoteFeatureDisabled)) (trace (structured luid q w)) ->
  value (structured luid q w) = Err FeatureDisabled.
Proof. unfold_tool; env_cases; intros H; in_trace; done. Qed.

(** *** Lifting facts about the second stage to the whole wrapper *)

Ltac cut_at_resolution name question limit w :=
  let fetched := fresh "fetched" in
  let found := fresh "found" in
  let w1 := fresh "w1" in
  let E := fresh "Hscan" in
  let Hf := fresh "Hfetched" in
  let Htr := fresh "Htrace" in
  let Hval := fresh "Hvalue" in
  destruct (simple_decompose name question limit w)
    as (fetched & found & w1 & E & Hf & Htr & Hval);
  rewrite ?Htr, ?Hval.

Ltac after_resolution H :=
  eapply In_after_fetches in H;
    [| eassumption | intros (? & ? & ?); discriminate].

Lemma best_concat_None pages t :
  (forall l, In l pages -> bestDatasourceMatch toLowerCase l t = None) ->
  bestDatasourceMatch toLowerCase (concat pages) t = None.
Proof.
  induction pages as [|l pages IH]; intros H; [done|]. simpl.
  rewrite best_app_None; [|apply H; by left].
  apply IH. intros l' Hl'. apply H. by right.
Qed.

(** *** The claims about the two tools *)

Variable requestId : string.
Variable vizqlDataServiceDisabledError : string.
Variable stringifyValidation : string -> string -> string.
Variable stringifyTableauError : string -> ErrorPayload -> string.

#[local] Abbreviation errorText :=
  (getErrorText requestId vizqlDataServiceDisabledError stringifyValidation
     stringifyTableauError).
#[local] Abbreviation simpleErrorText :=
  (simpleGetErrorText requestId vizqlDataServiceDisabledError stringifyTableauError).



(** C3: the resolver answers with [bestDatasourceMatch] of the scanned
    listing.  If a scanned datasource has the term as its lower-cased name,
    the answer is the first such datasource; otherwise it is the first
    scanned datasource whose lower-cased name contains the term, and
    "not found" when there is none.  The same holds of
    [bestDatasourceMatch] on any one list. *)
Theorem C3_exact_before_substring name w (page : list ListedDatasource) :
  let term := toLowerCase (trim name) in
  let run := resolveDatasource toLowerCase trim W env name w in
  let scanned := scannedListing (trace run) in
  let exact := fun d => String.eqb (nameLower toLowerCase d) term in
  let contains := fun d => includes (nameLower toLowerCase d) term in
  ((exists d, In d scanned /\ nameLower toLowerCase d = term) ->
   exists m, value run = Ok m /\ nameLower toLowerCase m = term
             /\ List.find exact scanned = Some m)
  /\ ((forall d, In d scanned -> nameLower toLowerCase d <> term) ->
      value run = match List.find contains scanned with
                  | Some m => Ok m
                  | None => Err (SimpleDatasourceNotFound (notFoundMessage name))
                  end)
  /\ ((exists d, In d page /\ nameLower toLowerCase d = term) ->
      exists m, bestDatasourceMatch toLowerCase page term = Some m
                /\ nameLower toLowerCase m = term
                /\ List.find exact page = Some m)
  /\ ((forall d, In d page -> nameLower toLowerCase d <> term) ->
      bestDatasourceMatch toLowerCase page term = List.find contains page).
Proof.
  intros term run scanned exact contains.
  assert (Hrun : value run
                 = match bestDatasourceMatch toLowerCase scanned term with
                   | Some m => Ok m
                   | None => Err (SimpleDatasourceNotFound (notFoundMessage name))
                   end).
  { subst run scanned.
    pose proof (scan_value toLowerCase W env pageNumbers term w) as Hv.
    destruct (scanPages toLowerCase W env pageNumbers term w)
      as [[found fetched] w1] eqn:E.
    rewrite (resolve_run _ _ _ _ _ E). unfold value, trace in *. simpl in *.
    by rewrite <- Hv. }
  split; [|split; [|split]].
  - intros (d & Hin & Hd).
    destruct (best_exact toLowerCase scanned term d Hin Hd) as (m & Hb & Hm & Hfind).
    exists m. by rewrite Hrun, Hb.
  - intros Hno. by rewrite Hrun, (best_no_exact toLowerCase scanned term Hno).
  - intros (d & Hin & Hd). by apply (best_exact toLowerCase page term d).
  - apply best_no_exact.
Qed.

(** C4: a run of the natural-language tool fetches at most five pages,
    pages 1, 2, ... in order; after a page that is absent or shorter than
    the page size no further page is fetched; and if no fetched page holds
    a match the outcome is the error ['datasource-not-found'], whose
    message contains the name as the caller gave it. *)
Theorem C4_bounded_resolution name question lim w :
  let term := toLowerCase (trim name) in
  let run := simple name question lim w in
  let fetches := pageFetches (trace run) in
  length fetches <= 5
  /\ List.map fst fetches `prefix_of` [1; 2; 3; 4; 5]
  /\ (forall pre f post,
        fetches = pre ++ f :: post -> shortPage (snd f) = true -> post = [])
  /\ ((forall f, In f fetches ->
         bestDatasourceMatch toLowerCase (default [] (snd f)) term = None) ->
      value run = Err (SimpleDatasourceNotFound (notFoundMessage name))
      /\ simpleErrorType (SimpleDatasourceNotFound (notFoundMessage name))
         = "datasource-not-found"
      /\ includes (notFoundMessage name) name = true
      /\ simpleErrorText (SimpleDatasourceNotFound (notFoundMessage name))
         = notFoundMessage name
      /\ executedQueries (trace run) = []).
Proof.
  intros term run fetches. subst run fetches.
  cut_at_resolution name question lim w.
  rewrite pageFetches_app, resolved_no_fetch, app_nil_r.
  pose proof (scan_page_numbers toLowerCase W env pageNumbers term w) as Hpre.
  pose proof (scan_continues toLowerCase W env pageNumbers term w) as Hcont.
  pose proof (scan_value toLowerCase W env pageNumbers term w) as Hv.
  fold term in Hscan. rewrite Hscan in Hpre, Hcont, Hv.
  unfold trace, value in Hpre, Hcont, Hv; simpl in Hpre, Hcont, Hv.
  split; [|split; [|split]].
  - apply prefix_length in Hpre. rewrite length_map in Hpre. exact Hpre.
  - exact Hpre.
  - intros pre f post Heq Hshort.
    destruct post as [|g post]; [done|].
    destruct (Hcont pre f (g :: post) Heq) as [_ Hfull]; [done|]. congruence.
  - intros Hnone.
    assert (Hfound : found = None).
    { rewrite Hv. apply best_concat_None. intros l Hl.
      apply in_map_iff in Hl as (f & <- & Hf). by apply Hnone. }
    rewrite Hfound, resolved_not_found.
    change (trace (Err (SimpleDatasourceNotFound (notFoundMessage name)), [], w1))
      with (@nil Event).
    rewrite app_nil_r, executedQueries_fetches by done.
    split; [done|]. split; [done|]. split; [apply notFoundMessage_includes|done].
Qed.

(** C6: when the query sent by the structured-query tool is answered with
    the ['feature-disabled'] signal, the outcome of the tool is tagged
    ['feature-disabled'], whatever the query. *)
Theorem C6_feature_disabled luid q w request :
  In (EvQueryDatasource request (Err RemoteFeatureDisabled)) (trace (structured luid q w)) ->
  value (structured luid q w) = Err FeatureDisabled
  /\ errorType FeatureDisabled = Some "feature-disabled"
  /\ errorText FeatureDisabled = Some vizqlDataServiceDisabledError.
Proof. intros H. by apply structured_feature_disabled in H as ->. Qed.

(** C7: when the access gate rejects the datasource, the outcome of either
    tool is the error ['datasource-not-allowed'] with the message of the
    checker, which is also the text shown; nothing is sent to
    [queryDatasource], and the rejected check is the last call of the
    run. *)
Theorem C7_gate_rejection luid q name question lim w l msg :
  (In (EvIsDatasourceAllowed l (NotAllowed msg)) (trace (structured luid q w)) ->
   value (structured luid q w) = Err (DatasourceNotAllowed msg)
   /\ errorType (DatasourceNotAllowed msg) = Some "datasource-not-allowed"
   /\ errorText (DatasourceNotAllowed msg) = Some msg
   /\ executedQueries (trace (structured luid q w)) = []
   /\ trace (structured luid q w) = [EvIsDatasourceAllowed luid (NotAllowed msg)])
  /\
  (In (EvIsDatasourceAllowed l (NotAllowed msg)) (trace (simple name question lim w)) ->
   value (simple name question lim w) = Err (SimpleDatasourceNotAllowed msg)
   /\ simpleErrorType (SimpleDatasourceNotAllowed msg) = "datasource-not-allowed"
   /\ simpleErrorText (SimpleDatasourceNotAllowed msg) = msg
   /\ executedQueries (trace (simple name question lim w)) = []
   /\ exists fetched,
        Forall isPageFetch fetched
        /\ trace (simple name question lim w)
           = fetched ++ [EvIsDatasourceAllowed l (NotAllowed msg)]).
Proof.
  split.
  - intros H. apply structured_gate in H as [Hv Ht]. by rewrite Hv, Ht.
  - cut_at_resolution name question lim w. intros H. after_resolution H.
    apply resolved_gate in H as [Hv Ht].
    rewrite Hv, Ht, executedQueries_app, executedQueries_fetches by done.
    repeat (split; [done|]). by exists fetched.
Qed.

(** C10: in the natural-language tool, whatever error [readMetadata]
    fails with, the outcome is ['feature-disabled']; it is never tagged
    ['tableau-error'], and no query is sent. *)
Theorem C10_metadata_failure name question lim w l e :
  In (EvReadMetadata l (Err e)) (trace (simple name question lim w)) ->
  value (simple name question lim w) = Err SimpleFeatureDisabled
  /\ simpleErrorType SimpleFeatureDisabled = "feature-disabled"
  /\ (forall err, value (simple name question lim w) = Err err ->
                  simpleErrorType err <> "tableau-error")
  /\ executedQueries (trace (simple name question lim w)) = [].
Proof.
  cut_at_resolution name question lim w. intros H. after_resolution H.
  apply resolved_metadata_failure in H as [Hv Hq].
  rewrite Hv, executedQueries_app, Hq, executedQueries_fetches by done.
  repeat (split; [done|]). split; [|done]. by intros err [= <-].
Qed.





End ToolRuns.

(** *** Concrete runs *)

Example resolve_prefers_exact :
  value (runResolve envHealthy "  SALES ") = Ok sales.
Proof. vm_compute. reflexivity. Qed.

Example resolve_falls_back_to_substring :
  value (runResolve (fixedEnv [[inventory; salesEmea]] Allowed (Ok JNull) (Ok tt) (Ok rows))
                    "sales")
  = Ok salesEmea.
Proof. vm_compute. reflexivity. Qed.

Example simple_run_succeeds :
  value (runSimple envHealthy "Sales" "How many orders?" (Some 50%Z)) = Ok rows
  /\ executedQueries (trace (runSimple envHealthy "Sales" "How many orders?" (Some 50%Z)))
     = [ {| datasource := {| datasourceLuid := "luid-sales"; connections := None |};
            query := {| fields := [ {| fieldCaption := JString "Order ID";
                                       function := Some "COUNT";
                                       fieldAlias := Some "Total Records" |} ];
                        filters := None; limit := Some 50%Z |};
            options := {| returnFormat := "OBJECTS"; debug := false;
                          disaggregate := false |} |} ].
Proof. split; vm_compute; reflexivity. Qed.



Lemma C3_exact_before_substring_witness :
  exists m, value (runResolve envHealthy "  SALES ") = Ok m
            /\ nameLower asciiToLowerCase m = "sales"
            /\ m = sales.
Proof.
  destruct (proj1 (C3_exact_before_substring
                     asciiToLowerCase asciiTrim unit envHealthy "  SALES " tt []))
    as (m & Hv & Hm & Hfind).
  - exists sales. split; [vm_compute; right; left; reflexivity | reflexivity].
  - exists m. split; [exact Hv|]. split; [exact Hm|].
    vm_compute in Hfind. injection Hfind as <-. reflexivity.
Defined.

Lemma C4_bounded_resolution_witness :
  value (runSimple envOtherListing "Sales" "How many orders?" None)
  = Err (SimpleDatasourceNotFound (notFoundMessage "Sales"))
  /\ includes (notFoundMessage "Sales") "Sales" = true.
Proof.
  pose proof (C4_bounded_resolution asciiToLowerCase asciiTrim unit envOtherListing
                validating "request-1" "VizQL Data Service is disabled."
                (fun _ _ => "tableau error") "Sales" "How many orders?" None tt) as H.
  cbv zeta in H. destruct H as (_ & _ & _ & H).
  destruct H as (Hv & _ & Hmsg & _); [|split; assumption].
  vm_compute. intros f [<-|[]]. reflexivity.
Defined.

Lemma C6_feature_disabled_witness :
  value (runStructured envDisabled "luid-sales" countRows) = Err FeatureDisabled.
Proof.
  refine (proj1 (C6_feature_disabled unit envDisabled validating "request-1"
                   "VizQL Data Service is disabled." (fun _ m => m)
                   (fun _ _ => "tableau error") "luid-sales" countRows tt _ _)).
  vm_compute. right. right. left. reflexivity.
Defined.

Lemma C7_gate_rejection_witness :
  value (runStructured envRejecting "luid-sales" countRows)
  = Err (DatasourceNotAllowed "Querying this datasource is not allowed.")
  /\ value (runSimple envRejecting "Sales" "How many orders?" None)
     = Err (SimpleDatasourceNotAllowed "Querying this datasource is not allowed.").
Proof.
  pose proof (C7_gate_rejection asciiToLowerCase asciiTrim unit envRejecting validating
                "request-1" "VizQL Data Service is disabled." (fun _ m => m)
                (fun _ _ => "tableau error") "luid-sales" countRows
                "Sales" "How many orders?" None tt "luid-sales"
                "Querying this datasource is not allowed.") as [H1 H2].
  split.
  - apply H1. vm_compute. left. reflexivity.
  - apply H2. vm_compute. right. left. reflexivity.
Defined.



Lemma C10_metadata_failure_witness :
  value (runSimple envNoMetadata "Sales" "How many orders?" None)
  = Err SimpleFeatureDisabled.
Proof.
  refine (proj1 (C10_metadata_failure asciiToLowerCase asciiTrim unit envNoMetadata
                   validating "Sales" "How many orders?" None tt "luid-sales"
                   serverError _)).
  vm_compute. right. right. left. reflexivity.
Defined.

End QueryDatasourceProps.

(** * Further properties of the code *)

(** ** [constrainDatasources] and the paginator limit *)

Module ListDatasourcesExtra.
Import ListDatasources Samples ListDatasourcesProps.

Lemma has_elem (s : gset string) (x : string) : has s x = true <-> x ∈ s.
Proof. unfold has. apply bool_decide_eq_true. Qed.

Lemma filter_nonempty_exists {A} (f : A -> bool) (l : list A) :
  List.filter f l <> [] <-> exists x, In x l /\ f x = true.
Proof.
  split.
  - intros Hne. destruct (List.filter f l) as [|x r] eqn:E; [done|].
    exists x. apply List.filter_In. rewrite E. by left.
  - intros (x & Hin & Hx) E.
    assert (Hf : In x (List.filter f l)) by (apply List.filter_In; done).
    by rewrite E in Hf.
Qed.

Lemma isResourceAllowed_elem d bc :
  isResourceAllowed d bc = true <->
  (forall ps, projectIds bc = Some ps -> project_id (ds_project d) ∈ ps)
  /\ (forall ids, datasourceIds bc = Some ids -> ds_id d ∈ ids).
Proof.
  unfold isResourceAllowed. rewrite andb_true_iff.
  destruct (projectIds bc) as [ps|], (datasourceIds bc) as [ids|];
    rewrite ?has_elem; split.
  all: try (intros [H1 H2]; split; [intros ? [= <-] | intros ? [= <-]]; done).
  all: try (intros [H1 H2]; split; [intros ? [= ] | intros ? [= ]]; done).
  all: intros [H1 H2]; split; first [done | by apply H1 | by apply H2].
Qed.

(** A context without restrictions hands a non-empty list back as it
    is. *)
Theorem unrestricted_context_keeps_all ds bc :
  projectIds bc = None ->
  datasourceIds bc = None ->
  ds <> [] ->
  constrainDatasources ds bc = SuccessResult ds.
Proof.
  intros Hp Hd Hne. rewrite constrainDatasources_narrowed.
  unfold narrowed. rewrite Hp, Hd. by destruct ds.
Qed.

Lemma unrestricted_context_keeps_all_witness :
  constrainDatasources [salesDs; hrDs] unrestricted = SuccessResult [salesDs; hrDs].
Proof.
  apply (unrestricted_context_keeps_all [salesDs; hrDs] unrestricted);
    [reflexivity | reflexivity | discriminate].
Defined.

(** The set of allowed datasources, when present but empty, excludes every
    datasource, whatever the project restriction is. *)
Theorem empty_allowed_datasources ds bc :
  datasourceIds bc = Some ∅ ->
  ds <> [] ->
  (forall d, isResourceAllowed d bc = false)
  /\ constrainDatasources ds bc = EmptyResult allFilteredMessage.
Proof.
  intros Hd Hne.
  assert (Hno : forall d, isResourceAllowed d bc = false).
  { intros d. unfold isResourceAllowed, has. rewrite Hd.
    rewrite (bool_decide_eq_false_2 (ds_id d ∈ ∅)); [apply andb_false_r | set_solver]. }
  split; [done|].
  rewrite constrainDatasources_narrowed, narrowed_isResourceAllowed, filter_none by done.
  by destruct ds.
Qed.

Lemma empty_allowed_datasources_witness :
  constrainDatasources [salesDs; hrDs] noDatasources = EmptyResult allFilteredMessage.
Proof.
  apply (empty_allowed_datasources [salesDs; hrDs] noDatasources);
    [reflexivity | discriminate].
Defined.

(** The outcome is a success exactly when some input datasource passes
    both membership tests; otherwise it is one of the two "empty"
    outcomes. *)
Theorem success_iff_some_allowed ds bc :
  resultType (constrainDatasources ds bc) = "success"
  <-> exists d, In d ds /\ isResourceAllowed d bc = true.
Proof.
  rewrite constrainDatasources_narrowed, narrowed_isResourceAllowed.
  rewrite <- filter_nonempty_exists.
  destruct ds as [|d ds]; [by split|].
  destruct (List.filter _ (d :: ds)); split; simpl; done.
Qed.

(** A success outcome never holds an empty list, and every datasource in
    it belongs to an allowed project and is an allowed datasource
    (whenever the respective restriction is configured). *)
Theorem success_members_allowed ds bc r :
  constrainDatasources ds bc = SuccessResult r ->
  r <> []
  /\ forall d, In d r ->
       In d ds
       /\ (forall ps, projectIds bc = Some ps -> project_id (ds_project d) ∈ ps)
       /\ (forall ids, datasourceIds bc = Some ids -> ds_id d ∈ ids).
Proof.
  intros H. rewrite constrainDatasources_narrowed in H.
  assert (Hr : r = narrowed ds bc /\ r <> []).
  { destruct ds; [discriminate|]. destruct (narrowed _ bc); [discriminate|].
    injection H as <-. done. }
  destruct Hr as [-> Hne]. split; [done|].
  intros d Hd. rewrite narrowed_isResourceAllowed in Hd.
  apply List.filter_In in Hd as [Hin Hd]. split; [done|].
  by apply isResourceAllowed_elem.
Qed.

Lemma success_members_allowed_witness :
  [hrDs] <> []
  /\ forall d, In d [hrDs] ->
       In d [salesDs; hrDs]
       /\ (forall ps, projectIds bothIds = Some ps -> project_id (ds_project d) ∈ ps)
       /\ (forall ids, datasourceIds bothIds = Some ids -> ds_id d ∈ ids).
Proof.
  apply (success_members_allowed [salesDs; hrDs] bothIds [hrDs]).
  vm_compute. reflexivity.
Defined.

(** Constraining is idempotent: a success list constrained again by the
    same context comes back unchanged. *)
Theorem constrain_idempotent ds bc r :
  constrainDatasources ds bc = SuccessResult r ->
  constrainDatasources r bc = SuccessResult r.
Proof.
  intros H. rewrite constrainDatasources_narrowed in H.
  assert (Hr : r = narrowed ds bc /\ r <> []).
  { destruct ds; [discriminate|]. destruct (narrowed _ bc); [discriminate|].
    injection H as <-. done. }
  destruct Hr as [Hr Hne].
  rewrite constrainDatasources_narrowed.
  assert (Hnn : narrowed r bc = r).
  { rewrite Hr, !narrowed_isResourceAllowed, filter_filter_andb.
    apply List.filter_ext. intros d. apply andb_diag. }
  rewrite Hnn. destruct r; done.
Qed.

Lemma constrain_idempotent_witness :
  constrainDatasources [hrDs] onlyP2 = SuccessResult [hrDs].
Proof.
  apply (constrain_idempotent [salesDs; hrDs] onlyP2 [hrDs]).
  vm_compute. reflexivity.
Defined.

(** The limit handed to the paginator.  With a non-zero operator maximum it
    is always present, never above the maximum and never above the limit
    of the caller; it is the caller's limit when that is within the
    maximum, and without a limit of the caller it is the smaller of the
    maximum and [Number.MAX_SAFE_INTEGER] (the maximum itself whenever
    that is a safe integer).  Without an operator maximum, and also with a
    maximum of zero, the limit of the caller passes unchanged (no limit
    stays no limit). *)
Theorem limit_clamped_by_maximum m lim :
  (m <> 0%Z ->
   exists e,
     pageConfigLimit (Some m) lim = Some e
     /\ (e <= m)%Z
     /\ (forall l, lim = Some l -> (e <= l)%Z /\ ((l <= m)%Z -> e = l))
     /\ (lim = None ->
         e = Z.min m MAX_SAFE_INTEGER
         /\ (e <= MAX_SAFE_INTEGER)%Z
         /\ ((m <= MAX_SAFE_INTEGER)%Z -> e = m)))
  /\ pageConfigLimit (Some 0%Z) lim = lim
  /\ pageConfigLimit None lim = lim.
Proof.
  split; [|by split].
  intros Hm. unfold pageConfigLimit.
  destruct (Z.eqb_spec m 0) as [->|_]; [done|].
  eexists. split; [reflexivity|]. split; [apply Z.le_min_l|]. split.
  - intros l ->. simpl. split; [apply Z.le_min_r|]. intros Hl. by apply Z.min_r.
  - intros ->. simpl. split; [done|]. split; [apply Z.le_min_r|].
    intros Hle. by apply Z.min_l.
Qed.

Lemma limit_clamped_by_maximum_witness :
  pageConfigLimit (Some (2 ^ 53 + 2)%Z) None = Some (2 ^ 53 - 1)%Z
  /\ pageConfigLimit (Some 100%Z) (Some 250%Z) = Some 100%Z.
Proof.
  split.
  - destruct (proj1 (limit_clamped_by_maximum (2 ^ 53 + 2) None)) as (e & -> & _ & _ & H);
      [discriminate|].
    destruct (H eq_refl) as [-> _]. reflexivity.
  - destruct (proj1 (limit_clamped_by_maximum 100 (Some 250%Z))) as (e & He & Hm & Hl & _);
      [discriminate|].
    rewrite He. f_equal.
    destruct (Hl 250%Z eq_refl) as [Hle _].
    unfold pageConfigLimit in He. simpl in He. by injection He as <-.
Defined.

End ListDatasourcesExtra.

(** ** Name resolution *)

Module ResolutionExtra.
Import JsString QueryDatasource Samples QueryDatasourceProps.

Lemma startsWith_empty s : startsWith s "" = true.
Proof. by destruct s. Qed.

Lemma includes_empty s : includes s "" = true.
Proof. by destruct s. Qed.

Lemma find_all_false {A} (f : A -> bool) (l : list A) :
  (forall x, In x l -> f x = false) -> List.find f l = None.
Proof.
  induction l as [|x l IH]; intros H; simpl; [done|].
  rewrite (H x) by (by left). apply IH. intros y Hy. apply H. by right.
Qed.

Section Resolver.

Variable toLowerCase : string -> string.
Variable trim : string -> string.
Variable W : Type.
Variable env : Env W.

#[local] Abbreviation best := (bestDatasourceMatch toLowerCase).
#[local] Abbreviation lower := (nameLower toLowerCase).
#[local] Abbreviation scan := (scanPages toLowerCase W env).
#[local] Abbreviation resolve := (resolveDatasource toLowerCase trim W env).

(** Whatever [bestDatasourceMatch] returns is an element of the list whose
    lower-cased name contains the term, and it returns nothing exactly
    when no lower-cased name in the list contains the term. *)
Theorem match_sound_and_complete (l : list ListedDatasource) (t : string) :
  (forall m, best l t = Some m -> In m l /\ includes (lower m) t = true)
  /\ (best l t = None <-> forall d, In d l -> includes (lower d) t = false).
Proof.
  split; [intros m; apply best_Some_In|]. split.
  - unfold bestDatasourceMatch.
    destruct (List.find (fun x => String.eqb (lower x) t) l); [done|].
    intros H d Hin. by eapply List.find_none in H.
  - intros Hno. unfold bestDatasourceMatch.
    rewrite (find_all_false (fun x => String.eqb (lower x) t)).
    + by apply find_all_false.
    + intros x Hx. apply String.eqb_neq. intros Heq.
      specialize (Hno x Hx). rewrite Heq, JsStringFacts.includes_refl in Hno. done.
Qed.

(** A datasource without a name is matched as if its name were the empty
    string. *)
Lemma nameless_lower d : ld_name d = None -> lower d = toLowerCase "".
Proof. unfold nameLower. by intros ->. Qed.

Ltac page_step w p :=
  simpl; unfold bind, callListDatasources, call;
  destruct (listDatasources env w "" pageSize p) as [answer w1];
  destruct (best (default [] answer) _) as [m'|] eqn:Hbest;
  [| destruct (shortPage answer) eqn:Hshort ].

Lemma scan_found pages t w m :
  value (scan pages t w) = Some m ->
  exists pre f,
    pageFetches (trace (scan pages t w)) = pre ++ [f]
    /\ best (default [] (snd f)) t = Some m.
Proof.
  induction pages as [|p later IH] in w |- *; [done|].
  page_step w p; simpl.
  - intros [= ->]. by exists [], (p, answer).
  - done.
  - specialize (IH w1). destruct (scan later t w1) as [[v evs] w2].
    unfold value, trace in *; simpl in *.
    intros Hv. destruct (IH Hv) as (pre & f & -> & Hf).
    by exists ((p, answer) :: pre), f.
Qed.

Lemma scan_exhausts pages t w :
  (forall f, In f (pageFetches (trace (scan pages t w))) ->
     best (default [] (snd f)) t = None /\ shortPage (snd f) = false) ->
  List.map fst (pageFetches (trace (scan pages t w))) = pages.
Proof.
  induction pages as [|p later IH] in w |- *; [done|].
  page_step w p; simpl.
  - intros H. destruct (H (p, answer)) as [H1 _]; [by left|]. simpl in H1. congruence.
  - intros H. destruct (H (p, answer)) as [_ H2]; [by left|]. simpl in H2. congruence.
  - specialize (IH w1). destruct (scan later t w1) as [[v evs] w2].
    unfold trace in *; simpl in *.
    intros H. f_equal. apply IH. intros f Hf. apply H. by right.
Qed.

Lemma resolve_scan name w :
  trace (resolve name w) = trace (scan pageNumbers (toLowerCase (trim name)) w)
  /\ value (resolve name w)
     = match value (scan pageNumbers (toLowerCase (trim name)) w) with
       | Some m => Ok m
       | None => Err (SimpleDatasourceNotFound (notFoundMessage name))
       end.
Proof.
  destruct (scan pageNumbers (toLowerCase (trim name)) w) as [[found fetched] w1] eqn:E.
  by rewrite (resolve_run toLowerCase trim W env name w found fetched w1 E).
Qed.

(** The resolver answers from the first page that holds any name
    containing the term: the datasource it returns is on the last page it
    fetched, and every page fetched before was full and held no name
    containing the term.  An exact match on a later page is not looked
    for. *)
Theorem resolved_from_first_matching_page name w m :
  value (resolve name w) = Ok m ->
  let term := toLowerCase (trim name) in
  exists earlier pageNumber answer,
    pageFetches (trace (resolve name w)) = earlier ++ [(pageNumber, answer)]
    /\ In m (default [] answer)
    /\ includes (lower m) term = true
    /\ best (default [] answer) term = Some m
    /\ forall f, In f earlier ->
         shortPage (snd f) = false
         /\ forall d, In d (default [] (snd f)) -> includes (lower d) term = false.
Proof.
  intros Hv term. destruct (resolve_scan name w) as [Ht Hval].
  rewrite Ht. rewrite Hval in Hv. fold term in Hv, Hval |- *.
  destruct (value (scan pageNumbers term w)) as [m'|] eqn:Hfound; [|done].
  injection Hv as ->.
  destruct (scan_found pageNumbers term w m Hfound) as (pre & [pn answer] & Hfetch & Hbest).
  exists pre, pn, answer. split; [done|].
  destruct (best_Some_In toLowerCase _ _ _ Hbest) as [Hin Hinc].
  do 3 (split; [done|]).
  intros f Hf. apply in_split in Hf as (pre1 & pre2 & ->).
  rewrite <- app_assoc in Hfetch. simpl in Hfetch.
  destruct (scan_continues toLowerCase W env pageNumbers term w pre1 f
              (pre2 ++ [(pn, answer)]) Hfetch) as [Hnone Hfull].
  { by destruct pre2. }
  split; [done|]. by apply match_sound_and_complete.
Qed.

(** When all the pages fetched are full and none holds a name containing
    the term, the resolver has fetched exactly pages 1 to 5 before it
    answers "not found". *)
Theorem full_listing_scans_five_pages name w :
  let term := toLowerCase (trim name) in
  (forall f, In f (pageFetches (trace (resolve name w))) ->
     best (default [] (snd f)) term = None /\ shortPage (snd f) = false) ->
  List.map fst (pageFetches (trace (resolve name w))) = [1; 2; 3; 4; 5]
  /\ value (resolve name w) = Err (SimpleDatasourceNotFound (notFoundMessage name)).
Proof.
  intros term H. destruct (resolve_scan name w) as [Ht Hval].
  rewrite Ht in H |- *. fold term in H, Hval |- *. split.
  - by apply scan_exhausts.
  - rewrite Hval, (scan_value toLowerCase W env pageNumbers term w).
    unfold scannedListing. rewrite (best_concat_None toLowerCase); [done|].
    intros l Hl. apply in_map_iff in Hl as (f & <- & Hf). by apply H.
Qed.

(** A name that trims to the empty string is contained in every name: the
    resolver then answers from the first page as soon as that page is not
    empty, with its first datasource unless some name there lower-cases to
    the empty string. *)
Theorem blank_name_takes_first_listed name w d rest w1 :
  toLowerCase (trim name) = "" ->
  listDatasources env w "" pageSize 1 = (Some (d :: rest), w1) ->
  exists m,
    value (resolve name w) = Ok m
    /\ In m (d :: rest)
    /\ trace (resolve name w) = [EvListDatasources "" pageSize 1 (Some (d :: rest))]
    /\ ((forall x, In x (d :: rest) -> lower x <> "") -> m = d).
Proof.
  intros Hterm Hpage.
  assert (Hsome : exists m, best (d :: rest) "" = Some m
                            /\ ((forall x, In x (d :: rest) -> lower x <> "") -> m = d)).
  { destruct (best (d :: rest) "") as [m|] eqn:E.
    - exists m. split; [done|]. intros Hno.
      rewrite (best_no_exact toLowerCase (d :: rest) "" Hno) in E.
      simpl in E. rewrite includes_empty in E. congruence.
    - pose proof (proj1 (proj2 (match_sound_and_complete _ _)) E d (or_introl eq_refl))
        as E'.
      by rewrite includes_empty in E'. }
  destruct Hsome as (m & Hm & Hfirst). exists m.
  destruct (best_Some_In toLowerCase _ _ _ Hm) as [Hin _].
  unfold resolveDatasource. rewrite Hterm. unfold pageNumbers. simpl.
  unfold bind, callListDatasources, call. rewrite Hpage. simpl. rewrite Hm.
  by unfold value, trace.
Qed.

End Resolver.

Lemma resolved_from_first_matching_page_witness :
  exists earlier pageNumber answer,
    pageFetches (trace (runResolve envLateExact "sales"))
    = earlier ++ [(pageNumber, answer)]
    /\ In salesEmea (default [] answer)
    /\ includes (nameLower asciiToLowerCase salesEmea) "sales" = true
    /\ bestDatasourceMatch asciiToLowerCase (default [] answer) "sales" = Some salesEmea
    /\ forall f, In f earlier ->
         shortPage (snd f) = false
         /\ forall d, In d (default [] (snd f)) ->
              includes (nameLower asciiToLowerCase d) "sales" = false.
Proof.
  apply (resolved_from_first_matching_page asciiToLowerCase asciiTrim unit
           envLateExact "sales" tt salesEmea).
  vm_compute. reflexivity.
Defined.

Lemma full_listing_scans_five_pages_witness :
  List.map fst (pageFetches (trace (runResolve envEndless "sales"))) = [1; 2; 3; 4; 5]
  /\ value (runResolve envEndless "sales")
     = Err (SimpleDatasourceNotFound (notFoundMessage "sales")).
Proof.
  apply (full_listing_scans_five_pages asciiToLowerCase asciiTrim unit envEndless "sales" tt).
  intros f Hf. vm_compute in Hf.
  repeat (destruct Hf as [<-|Hf]; [split; vm_compute; reflexivity|]).
  destruct Hf.
Defined.

Lemma blank_name_takes_first_listed_witness :
  exists m,
    value (runResolve envHealthy "   ") = Ok m
    /\ In m [salesEmea; sales]
    /\ trace (runResolve envHealthy "   ")
       = [EvListDatasources "" pageSize 1 (Some [salesEmea; sales])]
    /\ ((forall x, In x [salesEmea; sales] -> nameLower asciiToLowerCase x <> "")
        -> m = salesEmea).
Proof.
  apply (blank_name_takes_first_listed asciiToLowerCase asciiTrim unit envHealthy
           "   " tt salesEmea [sales] tt); reflexivity.
Defined.

End ResolutionExtra.

(** ** The caption taken from the metadata *)

Module CaptionExtra.
Import JsString QueryDatasource Samples QueryDatasourceProps.

Lemma coalesce_not_nullish a b : isNullish b = false -> isNullish (a ?? b) = false.
Proof. intros Hb. unfold coalesce. by destruct (isNullish a) eqn:E. Qed.

Lemma coalesce_right a b : isNullish a = true -> a ?? b = b.
Proof. unfold coalesce. by intros ->. Qed.

(** [extractFirstFieldCaption] never answers [undefined] or [null],
    whatever the metadata is. *)
Theorem caption_never_nullish md : isNullish (extractFirstFieldCaption md) = false.
Proof. unfold extractFirstFieldCaption. by apply coalesce_not_nullish. Qed.

(** A top-level [fields] that is present decides alone: the shapes
    [result.fields], [data.fields] and [metadata.fields] are not consulted,
    and unless it is an array with a first element the caption is the
    default one. *)
Theorem top_level_fields_decide md :
  isNullish (optGet md "fields") = false ->
  (forall first rest,
      optGet md "fields" = JArray (first :: rest) ->
      extractFirstFieldCaption md
      = optGet first "fieldCaption" ?? optGet first "name" ?? optGet first "caption"
        ?? JString "Number of Records")
  /\ ((forall first rest, optGet md "fields" <> JArray (first :: rest)) ->
      extractFirstFieldCaption md = JString "Number of Records").
Proof.
  intros Hf. pose proof (candidates_fields md Hf) as Hc. split.
  - intros first rest H. apply (extract_first md first rest). by rewrite Hc.
  - intros Hno. unfold extractFirstFieldCaption. rewrite Hc.
    destruct (optGet md "fields") as [| | | | |[|first rest]|] eqn:E; try done.
    by destruct (Hno first rest).
Qed.

Lemma top_level_fields_decide_witness :
  extractFirstFieldCaption shadowedMetadata = JString "Number of Records".
Proof.
  apply (top_level_fields_decide shadowedMetadata); [reflexivity|].
  intros first rest. vm_compute. discriminate.
Defined.

(** For the first reported field, [fieldCaption] is taken if it is not
    nullish, else [name], else [caption], else the default caption. *)
Theorem caption_precedence md first rest :
  candidatesOf md = JArray (first :: rest) ->
  (isNullish (optGet first "fieldCaption") = false ->
   extractFirstFieldCaption md = optGet first "fieldCaption")
  /\ (isNullish (optGet first "fieldCaption") = true ->
      isNullish (optGet first "name") = false ->
      extractFirstFieldCaption md = optGet first "name")
  /\ (isNullish (optGet first "fieldCaption") = true ->
      isNullish (optGet first "name") = true ->
      isNullish (optGet first "caption") = false ->
      extractFirstFieldCaption md = optGet first "caption")
  /\ (isNullish (optGet first "fieldCaption") = true ->
      isNullish (optGet first "name") = true ->
      isNullish (optGet first "caption") = true ->
      extractFirstFieldCaption md = JString "Number of Records").
Proof.
  intros Hc. rewrite (extract_first md first rest Hc). unfold coalesce.
  split; [|split; [|split]]; intros;
    repeat (match goal with
            | H : isNullish ?x = _ |- context [isNullish ?x] => rewrite H
            end; cbv iota);
    done.
Qed.

Lemma caption_precedence_witness :
  extractFirstFieldCaption namedFieldMetadata = JString "Profit".
Proof.
  refine (proj1 (proj2 (caption_precedence namedFieldMetadata
                          (JObject [("fieldCaption", JNull); ("name", JString "Profit")])
                          [] _)) _ _); reflexivity.
Defined.

(** Metadata that lists its fields in an array under [data] (and has none
    of the other shapes) is not recognised: [data.fields] of an array is
    [undefined], so the caption is the default one. *)
Theorem data_array_not_recognised md items :
  isNullish (optGet md "fields") = true ->
  isNullish (optGet (optGet md "result") "fields") = true ->
  optGet md "data" = JArray items ->
  isNullish (optGet (optGet md "metadata") "fields") = true ->
  extractFirstFieldCaption md = JString "Number of Records".
Proof.
  intros H1 H2 H3 H4. apply extract_empty. unfold candidatesOf.
  rewrite H3. simpl (optGet (JArray items) _).
  rewrite (coalesce_right _ _ H1), (coalesce_right _ _ H2).
  rewrite (coalesce_right JUndefined) by done.
  by rewrite (coalesce_right _ _ H4).
Qed.

Lemma data_array_not_recognised_witness :
  extractFirstFieldCaption dataArrayMetadata = JString "Number of Records".
Proof.
  apply (data_array_not_recognised dataArrayMetadata
           [JObject [("fieldCaption", JString "Region")]]); reflexivity.
Defined.

End CaptionExtra.

(** ** Runs of the two tools *)

Module ToolRunsExtra.
Import JsString QueryDatasource Samples QueryDatasourceProps.

Ltac kinds_in_order :=
  simpl; repeat first [apply sublist_nil | apply sublist_skip | apply sublist_cons].

Ltac units :=
  repeat match goal with u : unit |- _ => destruct u end.

Section Runs.

Variable toLowerCase : string -> string.
Variable trim : string -> string.
Variable W : Type.
Variable env : Env W.
Variable config : Config.

#[local] Abbreviation structured := (queryDatasourceCallback W env config).
#[local] Abbreviation secondStage := (queryResolved W env config).
#[local] Abbreviation simple :=
  (simpleQueryDatasourceCallback toLowerCase trim W env config).
#[local] Abbreviation resolve := (resolveDatasource toLowerCase trim W env).

(** [luid ?? id] of a listed datasource. *)
#[local] Abbreviation identifierOf found :=
  (match ld_luid found with
   | Some l => Some l
   | None => ld_id found
   end).

Ltac cut_run name question lim w :=
  let fetched := fresh "fetched" in
  let found := fresh "found" in
  let w1 := fresh "w1" in
  let E := fresh "Hscan" in
  let Hf := fresh "Hfetched" in
  let Htr := fresh "Htrace" in
  let Hval := fresh "Hvalue" in
  destruct (simple_decompose toLowerCase trim W env config name question lim w)
    as (fetched & found & w1 & E & Hf & Htr & Hval);
  cbv zeta in Htr, Hval;
  pose proof (resolve_run toLowerCase trim W env name w _ _ _ E) as Hresolve.

Ltac past_fetches H :=
  eapply In_after_fetches in H;
    [| eassumption | intros (? & ? & ?); discriminate].

(** *** The structured-query tool *)

(** The structured-query tool sends the caller's query on unchanged: the
    one request it makes carries the given identifier, the stored
    credentials of that datasource, the given query and the fixed options,
    and it makes it only after the gate has allowed that identifier, as
    the first call of the run. *)
Theorem structured_request_is_the_callers luid q w request answer :
  In (EvQueryDatasource request answer) (trace (structured luid q w)) ->
  request
  = {| datasource := {| datasourceLuid := luid;
                        connections := getDatasourceCredentials env luid |};
       query := q;
       options := {| returnFormat := "OBJECTS"; debug := true; disaggregate := false |} |}
  /\ (exists rest, trace (structured luid q w) = EvIsDatasourceAllowed luid Allowed :: rest)
  /\ executedQueries (trace (structured luid q w)) = [request].
Proof.
  unfold_tool; env_cases; intros H; in_trace; (split; [done|]); (split; [|done]);
    by eexists.
Qed.

(** The outcome of the structured-query tool once the query has been
    answered: the payload on success; on failure the feature-disabled
    outcome, the remote error under the ['tableau-error'] tag, or the
    [ZodiosError] itself, which carries none of the four tags. *)
Theorem structured_outcome_of_answer luid q w request answer :
  In (EvQueryDatasource request answer) (trace (structured luid q w)) ->
  value (structured luid q w)
  = match answer with
    | Ok v => Ok v
    | Err (RemoteZodios z) => Err (ZodiosPassthrough z)
    | Err RemoteFeatureDisabled => Err FeatureDisabled
    | Err (RemoteTableau e) => Err (TableauErr e)
    end
  /\ (forall z e, answer = Err (RemoteZodios z) ->
                  value (structured luid q w) = Err e -> errorType e = None)
  /\ (forall t e, answer = Err (RemoteTableau t) ->
                  value (structured luid q w) = Err e ->
                  errorType e = Some "tableau-error").
Proof.
  unfold_tool; env_cases; intros H; in_trace; (split; [done|]);
    split; intros ? ? [= ] [= ]; by subst.
Qed.

(** The structured-query tool always starts with the access check for the
    identifier it was given, and calls each collaborator at most once, in
    the order access check, filter validation, query: nothing is
    retried. *)
Theorem structured_calls_in_order luid q w :
  (exists answer rest,
      trace (structured luid q w) = EvIsDatasourceAllowed luid answer :: rest)
  /\ List.map eventKind (trace (structured luid q w))
     `sublist_of` ["isDatasourceAllowed"; "validateFilterValues"; "queryDatasource"].
Proof.
  unfold_tool; env_cases; (split; [by eexists _, _ | kinds_in_order]).
Qed.

(** *** The second stage of the natural-language tool, by cases *)

Lemma second_stage_query name question rl resolved w request answer :
  In (EvQueryDatasource request answer) (trace (secondStage name question rl resolved w)) ->
  exists found l md,
    resolved = Ok found
    /\ identifierOf found = Some l
    /\ l <> ""
    /\ In (EvIsDatasourceAllowed l Allowed) (trace (secondStage name question rl resolved w))
    /\ In (EvReadMetadata l (Ok md)) (trace (secondStage name question rl resolved w))
    /\ request
       = {| datasource := {| datasourceLuid := l;
                             connections := getDatasourceCredentials env l |};
            query := buildQueryFromQuestion question (extractFirstFieldCaption md) rl;
            options := {| returnFormat := "OBJECTS"; debug := false;
                          disaggregate := false |} |}
    /\ executedQueries (trace (secondStage name question rl resolved w)) = [request]
    /\ value (secondStage name question rl resolved w)
       = match answer with
         | Ok v => Ok v
         | Err (RemoteZodios z) => Err (SimpleTableauError (PayloadZodios z))
         | Err RemoteFeatureDisabled => Err SimpleFeatureDisabled
         | Err (RemoteTableau e) => Err (SimpleTableauError (PayloadTableau e))
         end
    /\ (disableQueryDatasourceFilterValidation config = false ->
        In (EvValidateFilterValues (query request) (datasource request) (Ok tt))
           (trace (secondStage name question rl resolved w))).
Proof.
  unfold queryResolved. destruct resolved as [found|e]; [|simpl; done].
  destruct (identifierOf found) as [[|c l]|] eqn:El; simpl negb; cbv iota;
    try (simpl; done).
  unfold_tool.
  destruct (disableQueryDatasourceFilterValidation config) eqn:Ed; simpl;
    env_cases; intros H; in_trace; units;
    eexists found, (String c l), _;
    (split; [done|]); (split; [done|]); (split; [done|]);
    (split; [simpl; tauto|]); (split; [simpl; tauto|]);
    (split; [reflexivity|]); (split; [reflexivity|]); (split; [reflexivity|]);
    first [done | intros _; simpl; tauto].
Qed.

Lemma second_stage_success name question rl resolved w v :
  value (secondStage name question rl resolved w) = Ok v <->
  exists request,
    In (EvQueryDatasource request (Ok v)) (trace (secondStage name question rl resolved w)).
Proof.
  split.
  - unfold queryResolved. destruct resolved as [found|e]; [|simpl; done].
    destruct (negb (truthyString _)); [simpl; done|].
    unfold_tool; env_cases; intros [= ]; subst; eexists; simpl; eauto 6.
  - intros (request & H). by apply second_stage_query in H as (?&?&?&_&_&_&_&_&_&_&->&_).
Qed.

Lemma second_stage_order name question rl resolved w :
  List.map eventKind (trace (secondStage name question rl resolved w))
  `sublist_of` ["isDatasourceAllowed"; "readMetadata"; "validateFilterValues";
                "queryDatasource"].
Proof.
  unfold queryResolved. destruct resolved as [found|e]; [|kinds_in_order].
  destruct (negb (truthyString _)); [kinds_in_order|].
  unfold_tool; env_cases; kinds_in_order.
Qed.

Lemma second_stage_skips_validation name question rl resolved w q d a :
  disableQueryDatasourceFilterValidation config = true ->
  ~ In (EvValidateFilterValues q d a) (trace (secondStage name question rl resolved w)).
Proof.
  intros Hc. unfold queryResolved. destruct resolved as [found|e]; [|simpl; tauto].
  destruct (negb (truthyString _)); [simpl; tauto|].
  unfold_tool. rewrite Hc. simpl. env_cases; intros H; in_trace.
Qed.

(** *** The natural-language tool *)

(** Every query the natural-language tool executes is for the identifier
    [luid ?? id] of the datasource the resolver returned; that identifier
    is not empty, the gate has allowed it and its metadata has been read
    in the same run; the request carries the stored credentials of that
    datasource and the query built from that metadata; and it is the only
    request of the run. *)
Theorem simple_request_provenance name question lim w request answer :
  In (EvQueryDatasource request answer) (trace (simple name question lim w)) ->
  exists found l md,
    value (resolve name w) = Ok found
    /\ identifierOf found = Some l
    /\ l <> ""
    /\ In (EvIsDatasourceAllowed l Allowed) (trace (simple name question lim w))
    /\ In (EvReadMetadata l (Ok md)) (trace (simple name question lim w))
    /\ request
       = {| datasource := {| datasourceLuid := l;
                             connections := getDatasourceCredentials env l |};
            query := buildQueryFromQuestion question (extractFirstFieldCaption md)
                       (default 20%Z lim);
            options := {| returnFormat := "OBJECTS"; debug := false;
                          disaggregate := false |} |}
    /\ executedQueries (trace (simple name question lim w)) = [request].
Proof.
  cut_run name question lim w. rewrite Htrace. intros H. past_fetches H.
  apply second_stage_query in H
    as (m & l & md & Hres & Hid & Hne & Hgate & Hmd & Hreq & Hex & _ & _).
  exists m, l, md.
  split; [rewrite Hresolve; exact Hres|]. do 2 (split; [done|]).
  do 2 (split; [apply in_or_app; by right|]). split; [done|].
  by rewrite executedQueries_app, executedQueries_fetches, Hex.
Qed.

(** The outcome of the natural-language tool once its query has been
    answered: the payload on success, the feature-disabled outcome for the
    feature-disabled signal, and for a remote error or a [ZodiosError] a
    ['tableau-error'] that carries it. *)
Theorem simple_outcome_of_answer name question lim w request answer :
  In (EvQueryDatasource request answer) (trace (simple name question lim w)) ->
  value (simple name question lim w)
  = match answer with
    | Ok v => Ok v
    | Err (RemoteZodios z) => Err (SimpleTableauError (PayloadZodios z))
    | Err RemoteFeatureDisabled => Err SimpleFeatureDisabled
    | Err (RemoteTableau e) => Err (SimpleTableauError (PayloadTableau e))
    end.
Proof.
  cut_run name question lim w. rewrite Htrace, Hvalue. intros H. past_fetches H.
  by apply second_stage_query in H as (?&?&?&_&_&_&_&_&_&_&->&_).
Qed.

(** When the matched datasource has no usable identifier (its [luid] is
    the empty string, or it has no [luid] and its [id] is absent or
    empty), the outcome is ['datasource-not-found'] with a message that
    quotes the name, and the run stops with the resolution: the gate is not
    consulted and nothing is read or queried.  An empty [luid] is not
    replaced by the [id]. *)
Theorem unusable_identifier_is_not_found name question lim w found :
  value (resolve name w) = Ok found ->
  ld_luid found = Some ""
  \/ (ld_luid found = None /\ (ld_id found = None \/ ld_id found = Some "")) ->
  value (simple name question lim w)
  = Err (SimpleDatasourceNotFound (noLuidMessage name))
  /\ trace (simple name question lim w) = trace (resolve name w)
  /\ Forall isPageFetch (trace (simple name question lim w))
  /\ includes (noLuidMessage name) name = true.
Proof.
  intros Hres Hid.
  assert (Hquote : includes (noLuidMessage name) name = true).
  { unfold noLuidMessage.
    do 2 apply JsStringFacts.includes_app_r. apply JsStringFacts.includes_here. }
  cut_run name question lim w.
  rewrite Htrace, Hvalue, Hresolve. rewrite Hresolve in Hres.
  unfold value in Hres; simpl in Hres. rewrite Hres.
  assert (Hstop : secondStage name question (default 20%Z lim) (Ok found) w1
                  = (Err (SimpleDatasourceNotFound (noLuidMessage name)), [], w1)).
  { unfold queryResolved.
    destruct Hid as [->|[-> [->| ->]]]; reflexivity. }
  rewrite Hstop. unfold value, trace. cbn [fst snd]. rewrite app_nil_r.
  done.
Qed.

(** The question does not influence a run of the natural-language tool:
    two calls that differ only in the question make the same calls and
    have the same outcome. *)
Theorem question_is_ignored name question1 question2 lim w :
  simpleQueryDatasourceCallback toLowerCase trim W env config name question1 lim w
  = simpleQueryDatasourceCallback toLowerCase trim W env config name question2 lim w.
Proof.
  unfold simpleQueryDatasourceCallback, bind.
  destruct (resolve name w) as [[resolved fetched] w1].
  reflexivity.
Qed.

(** A run of the natural-language tool is a series of page fetches
    followed by at most one access check, one metadata read, one filter
    validation and one query, in that order. *)
Theorem simple_calls_in_order name question lim w :
  exists fetched rest,
    trace (simple name question lim w) = fetched ++ rest
    /\ Forall isPageFetch fetched
    /\ List.map eventKind rest
       `sublist_of` ["isDatasourceAllowed"; "readMetadata"; "validateFilterValues";
                     "queryDatasource"].
Proof.
  cut_run name question lim w. eexists fetched, _. split; [exact Htrace|].
  split; [done|]. apply second_stage_order.
Qed.

(** *** Both tools *)

Lemma structured_validated luid q w request answer :
  disableQueryDatasourceFilterValidation config = false ->
  In (EvQueryDatasource request answer) (trace (structured luid q w)) ->
  In (EvValidateFilterValues (query request) (datasource request) (Ok tt))
     (trace (structured luid q w)).
Proof.
  intros Hc. unfold_tool. rewrite Hc. simpl.
  env_cases; intros H; in_trace; units; simpl; tauto.
Qed.

(** With filter validation enabled, a query is executed only after the
    validation of that same query for that same datasource has been
    answered without findings, in both tools. *)
Theorem validated_before_executed luid q name question lim w request answer :
  disableQueryDatasourceFilterValidation config = false ->
  (In (EvQueryDatasource request answer) (trace (structured luid q w)) ->
   In (EvValidateFilterValues (query request) (datasource request) (Ok tt))
      (trace (structured luid q w)))
  /\ (In (EvQueryDatasource request answer) (trace (simple name question lim w)) ->
      In (EvValidateFilterValues (query request) (datasource request) (Ok tt))
         (trace (simple name question lim w))).
Proof.
  intros Hc. split; [by apply structured_validated|].
  cut_run name question lim w. rewrite Htrace. intros H. past_fetches H.
  apply second_stage_query in H as (?&?&?&_&_&_&_&_&_&_&_&Hv).
  apply in_or_app. right. by apply Hv.
Qed.

(** With filter validation disabled by the configuration,
    [validateFilterValues] is never called, in either tool. *)
Theorem validation_disabled_is_skipped luid q name question lim w :
  disableQueryDatasourceFilterValidation config = true ->
  (forall q' d a,
      ~ In (EvValidateFilterValues q' d a) (trace (structured luid q w)))
  /\ (forall q' d a,
      ~ In (EvValidateFilterValues q' d a) (trace (simple name question lim w))).
Proof.
  intros Hc. split; intros q' d a.
  - unfold_tool. rewrite Hc. simpl. env_cases; intros H; in_trace.
  - cut_run name question lim w. rewrite Htrace. intros H. past_fetches H.
    by eapply second_stage_skips_validation in H.
Qed.

(** Either tool succeeds exactly when its query has been executed and
    answered with a payload, and the outcome is that payload. *)
Theorem success_is_the_remote_payload luid q name question lim w v :
  (value (structured luid q w) = Ok v
   <-> exists request,
         In (EvQueryDatasource request (Ok v)) (trace (structured luid q w)))
  /\ (value (simple name question lim w) = Ok v
      <-> exists request,
            In (EvQueryDatasource request (Ok v)) (trace (simple name question lim w))).
Proof.
  split.
  - split.
    + unfold_tool; env_cases; intros [= ]; subst; eexists; simpl; eauto 6.
    + intros (request & H). revert H.
      unfold_tool; env_cases; intros H; in_trace; done.
  - cut_run name question lim w. rewrite Htrace, Hvalue.
    rewrite second_stage_success. split; intros (request & H); exists request.
    + apply in_or_app. by right.
    + by past_fetches H.
Qed.

End Runs.

(** *** Concrete runs *)

Lemma structured_request_is_the_callers_witness :
  executedQueries (trace (runStructured envHealthy "luid-sales" countRows))
  = [ {| datasource := {| datasourceLuid := "luid-sales"; connections := None |};
         query := countRows;
         options := {| returnFormat := "OBJECTS"; debug := true;
                       disaggregate := false |} |} ].
Proof.
  refine (proj2 (proj2 (structured_request_is_the_callers unit envHealthy validating
                          "luid-sales" countRows tt _ (Ok rows) _))).
  vm_compute. right. right. left. reflexivity.
Defined.

Lemma structured_outcome_of_answer_witness :
  value (runStructured envServerError "luid-sales" countRows)
  = Err (TableauErr {| errorCode := "500000"; message := "Internal error" |}).
Proof.
  refine (proj1 (structured_outcome_of_answer unit envServerError validating
                   "luid-sales" countRows tt _ (Err serverError) _)).
  vm_compute. right. right. left. reflexivity.
Defined.

Lemma simple_request_provenance_witness :
  executedQueries (trace (runSimple envHealthy "Sales" "How many orders?" None))
  = [ {| datasource := {| datasourceLuid := "luid-sales"; connections := None |};
         query := buildQueryFromQuestion "How many orders?" (JString "Order ID") 20%Z;
         options := {| returnFormat := "OBJECTS"; debug := false;
                       disaggregate := false |} |} ].
Proof.
  destruct (simple_request_provenance asciiToLowerCase asciiTrim unit envHealthy
              validating "Sales" "How many orders?" None tt
              {| datasource := {| datasourceLuid := "luid-sales"; connections := None |};
                 query := buildQueryFromQuestion "How many orders?"
                            (JString "Order ID") 20%Z;
                 options := {| returnFormat := "OBJECTS"; debug := false;
                               disaggregate := false |} |}
              (Ok rows))
    as (found & l & md & _ & _ & _ & _ & _ & _ & Hex).
  - vm_compute. do 4 right. left. reflexivity.
  - exact Hex.
Defined.

Lemma simple_outcome_of_answer_witness :
  value (runSimple envZodios "Sales" "How many orders?" None)
  = Err (SimpleTableauError (PayloadZodios "Zodios: invalid response")).
Proof.
  refine (simple_outcome_of_answer asciiToLowerCase asciiTrim unit envZodios validating
            "Sales" "How many orders?" None tt _
            (Err (RemoteZodios "Zodios: invalid response")) _).
  vm_compute. do 4 right. left. reflexivity.
Defined.

Lemma unusable_identifier_is_not_found_witness :
  value (runSimple envBlankLuid "Sales" "How many orders?" None)
  = Err (SimpleDatasourceNotFound (noLuidMessage "Sales"))
  /\ trace (runSimple envBlankLuid "Sales" "How many orders?" None)
     = trace (runResolve envBlankLuid "Sales")
  /\ Forall isPageFetch (trace (runSimple envBlankLuid "Sales" "How many orders?" None))
  /\ includes (noLuidMessage "Sales") "Sales" = true.
Proof.
  apply (unusable_identifier_is_not_found asciiToLowerCase asciiTrim unit envBlankLuid
           validating "Sales" "How many orders?" None tt blankLuid).
  - vm_compute. reflexivity.
  - left. reflexivity.
Defined.

Lemma validated_before_executed_witness :
  disableQueryDatasourceFilterValidation validating = false
  /\ In (EvValidateFilterValues countRows
           {| datasourceLuid := "luid-sales"; connections := None |} (Ok tt))
        (trace (runStructured envHealthy "luid-sales" countRows)).
Proof.
  split; [reflexivity|].
  refine (proj1 (validated_before_executed asciiToLowerCase asciiTrim unit envHealthy
                   validating "luid-sales" countRows "Sales" "How many orders?" None tt
                   {| datasource := {| datasourceLuid := "luid-sales";
                                       connections := None |};
                      query := countRows;
                      options := {| returnFormat := "OBJECTS"; debug := true;
                                    disaggregate := false |} |}
                   (Ok rows) _) _).
  - reflexivity.
  - vm_compute. right. right. left. reflexivity.
Defined.

Lemma validation_disabled_is_skipped_witness :
  disableQueryDatasourceFilterValidation notValidating = true
  /\ ~ In (EvValidateFilterValues countRows
             {| datasourceLuid := "luid-sales"; connections := None |} (Ok tt))
          (trace (runStructuredWith notValidating envInvalidFilter "luid-sales" countRows))
  /\ value (runStructuredWith notValidating envInvalidFilter "luid-sales" countRows)
     = Ok rows.
Proof.
  split; [reflexivity|]. split; [|vm_compute; reflexivity].
  apply (proj1 (validation_disabled_is_skipped asciiToLowerCase asciiTrim unit
                  envInvalidFilter notValidating "luid-sales" countRows
                  "Sales" "How many orders?" None tt eq_refl)).
Defined.

End ToolRunsExtra.
